(** * Product catalog service: model and verified properties

    A shallow embedding of [service/routes.py] (the Flask route layer of the
    Product catalog) together with the parts of [service/models.py] it calls.

    Conventions of the embedding:
    - Python [str] values are Rocq [string]s.  [str.upper] and [str.lower]
      follow the Unicode case tables, which are not modelled: the handlers
      take the two functions as parameters.  [Text.upper] and [Text.lower],
      which act on the ASCII letters, serve for header names and as an
      instance of the parameters.
    - Python [int] is [Z]; [Decimal] is a fixed-point pair (unscaled, scale).
    - JSON-compatible Python values ([None], [bool], [int], [str], [list],
      [dict]) are the inductive type [value]; a [dict] is an association list
      read with first-match lookup.
    - A handler is a function of the request and the world (the table of
      stored rows, the key generator and the log of calls made into the
      model); it returns an outcome (a response, an [abort] or an exception)
      and the world it leaves behind.  Logging through [app.logger] has no
      effect on any of this and is left out, and so is the static index
      page. *)

From Stdlib Require Import Bool List Ascii String NArith ZArith QArith Lia.
From Stdlib Require Import Permutation.
Import ListNotations.

Set Warnings "-register-all".

Local Open Scope string_scope.
Local Open Scope Z_scope.

(* ================================================================== *)
(** * Text: case conversion, substring test, printing of integers     *)
(* ================================================================== *)

Module Text.

Definition is_lower (c : ascii) : bool :=
  let n := N_of_ascii c in (97 <=? n)%N && (n <=? 122)%N.

Definition is_upper (c : ascii) : bool :=
  let n := N_of_ascii c in (65 <=? n)%N && (n <=? 90)%N.

Definition upper_ascii (c : ascii) : ascii :=
  if is_lower c then ascii_of_N (N_of_ascii c - 32) else c.

Definition lower_ascii (c : ascii) : ascii :=
  if is_upper c then ascii_of_N (N_of_ascii c + 32) else c.

(** [s.upper()] on ASCII text: the letters a-z become A-Z. *)
Fixpoint upper (s : string) : string :=
  match s with
  | EmptyString => EmptyString
  | String c s' => String (upper_ascii c) (upper s')
  end.

(** [s.lower()] on ASCII text: the letters A-Z become a-z. *)
Fixpoint lower (s : string) : string :=
  match s with
  | EmptyString => EmptyString
  | String c s' => String (lower_ascii c) (lower s')
  end.

(** Equality of two ASCII strings up to the case of their letters. *)
Definition eqb_nocase (a b : string) : bool := String.eqb (upper a) (upper b).

(** [sub in s] for strings. *)
Fixpoint contains (sub s : string) : bool :=
  String.prefix sub s ||
  match s with
  | EmptyString => false
  | String _ s' => contains sub s'
  end.

(** Truthiness of a string: [if s:] holds for every string but the empty one. *)
Definition truthy (s : string) : bool :=
  match s with EmptyString => false | String _ _ => true end.

Definition digit_to_ascii (d : N) : ascii := ascii_of_N (48 + d).

Definition ascii_to_digit (c : ascii) : option N :=
  let n := N_of_ascii c in
  if (48 <=? n)%N && (n <=? 57)%N then Some (n - 48)%N else None.

(** The [w] low-order decimal digits of [n], most significant first, put in
    front of [tail]. *)
Fixpoint digits_fixed (w : nat) (n : N) (tail : string) : string :=
  match w with
  | O => tail
  | S w' => digits_fixed w' (n / 10) (String (digit_to_ascii (n mod 10)) tail)
  end.

Fixpoint num_digits_aux (fuel : nat) (n : N) : nat :=
  match fuel with
  | O => 1
  | S f => if (n <? 10)%N then 1%nat else S (num_digits_aux f (n / 10))
  end.

(** Number of decimal digits of [n] (one for zero). *)
Definition num_digits (n : N) : nat := num_digits_aux (N.size_nat n) n.

(** [str(n)] for a natural number, in front of [tail]. *)
Definition str_N_onto (n : N) (tail : string) : string :=
  digits_fixed (num_digits n) n tail.

(** [str(z)] for a Python int. *)
Definition str_Z (z : Z) : string :=
  if z <? 0 then String "-" (str_N_onto (Z.abs_N z) "")
  else str_N_onto (Z.abs_N z) "".

End Text.

(* ================================================================== *)
(** * Decimal: fixed-point numbers and their string form              *)
(* ================================================================== *)

Module Decimal.

(** The number [unscaled / 10^scale]: [Decimal("12.50")] is [(1250, 2)]. *)
Record t := mk { unscaled : Z; scale : nat }.

(** The rational number a decimal stands for. *)
Definition value (d : t) : Q :=
  Qmake (unscaled d) (Z.to_pos (10 ^ Z.of_nat (scale d))).

(** [str(d)]: sign, integer part, and [scale] fraction digits after a point. *)
Definition to_string (d : t) : string :=
  let n := Z.abs_N (unscaled d) in
  let p := (10 ^ N.of_nat (scale d))%N in
  let frac :=
    match scale d with
    | O => EmptyString
    | S _ => String "." (Text.digits_fixed (scale d) (n mod p) "")
    end in
  let body := Text.str_N_onto (n / p) frac in
  if unscaled d <? 0 then String "-" body else body.

(** Fraction digits: every character up to the end is a digit. *)
Fixpoint read_frac (s : string) (acc : N) (sc : nat) : option (N * nat) :=
  match s with
  | EmptyString => Some (acc, sc)
  | String c s' =>
      match Text.ascii_to_digit c with
      | Some d => read_frac s' (10 * acc + d)%N (S sc)
      | None => None
      end
  end.

(** Integer digits, then either the end or a point followed by at least one
    fraction digit. *)
Fixpoint read_int (s : string) (acc : N) : option (N * nat) :=
  match s with
  | EmptyString => Some (acc, O)
  | String c s' =>
      if Ascii.eqb c "." then
        match s' with
        | EmptyString => None
        | String _ _ => read_frac s' acc O
        end
      else
        match Text.ascii_to_digit c with
        | Some d => read_int s' (10 * acc + d)%N
        | None => None
        end
  end.

(** An unsigned literal starts with a digit. *)
Definition read_unsigned (s : string) : option (N * nat) :=
  match s with
  | EmptyString => None
  | String c _ =>
      match Text.ascii_to_digit c with
      | Some _ => read_int s 0
      | None => None
      end
  end.

(** [Decimal(s)] for the literals [-?digits(.digits)?]; [None] when [s] is
    not such a literal. *)
Definition of_string (s : string) : option t :=
  match s with
  | EmptyString => None
  | String c s' =>
      if Ascii.eqb c "-" then
        match read_unsigned s' with
        | Some (n, sc) => Some (mk (- Z.of_N n) sc)
        | None => None
        end
      else
        match read_unsigned s with
        | Some (n, sc) => Some (mk (Z.of_N n) sc)
        | None => None
        end
  end.

End Decimal.

(* ================================================================== *)
(** * JSON-compatible Python values                                   *)
(* ================================================================== *)

Inductive value : Type :=
| VNone
| VBool (b : bool)
| VInt (z : Z)
| VStr (s : string)
| VList (l : list value)
| VDict (d : list (string * value)).

(** First binding of [k] in an association list. *)
Fixpoint assoc {A : Type} (k : string) (d : list (string * A)) : option A :=
  match d with
  | [] => None
  | (k', v) :: d' => if String.eqb k' k then Some v else assoc k d'
  end.

(** [data[k]]: the value bound to [k], or nothing when [data] has no such
    key (a value that is no mapping has no keys). *)
Definition dict_get (k : string) (data : value) : option value :=
  match data with
  | VDict d => assoc k d
  | _ => None
  end.

Definition from_option {A : Type} (f : A -> value) (o : option A) : value :=
  match o with
  | Some a => f a
  | None => VNone
  end.

(** Exceptions that travel through the route layer. *)
Inductive exn : Type :=
| DataValidationError (msg : string)
| AttributeError (msg : string).

(** A member of the [Category] enumeration, identified by its name. *)
Definition Category : Type := string.

(* ================================================================== *)
(** * The Product entity and its persistence operations               *)
(* ================================================================== *)

Module Product.

(** Modelled from the spec: the class [Product] of [service/models.py],
    which is not among the sources.  Spec section 3 gives the attributes: [id]
    (absent before persistence), [name] and [description] (text), [price]
    (decimal), [available] (boolean), [category] (a Category member).  The
    attributes of a Python object are untyped and unset until populated:
    [name] and [description] hold whatever value they were given ([VNone] when
    unset), the checked attributes are optional. *)
Record t := mk {
  id : option Z;
  name : value;
  description : value;
  price : option Decimal.t;
  available : option bool;
  category : option Category
}.

(** Modelled from the spec: [Product()], created in memory with all fields
    unset. *)
Definition new : t := mk None VNone VNone None None None.

Definition set_id (i : option Z) (p : t) : t :=
  mk i (name p) (description p) (price p) (available p) (category p).

(** Modelled from the spec: [serialize()] (section 4.2) produces a mapping
    with keys [id, name, description, price, available, category]; [price] is
    emitted as a decimal-formatted string and [category] as its label text.
    An unset attribute is emitted as [None]. *)
Definition serialize (p : t) : value :=
  VDict [ ("id", from_option VInt (id p));
          ("name", name p);
          ("description", description p);
          ("price", from_option (fun d => VStr (Decimal.to_string d)) (price p));
          ("available", from_option VBool (available p));
          ("category", from_option VStr (category p)) ].

Definition has_id (i : Z) (p : t) : bool :=
  match id p with
  | Some j => Z.eqb j i
  | None => false
  end.

Definition is_text (v : value) : bool :=
  match v with VStr _ => true | _ => false end.

Definition is_nonempty_text (v : value) : bool :=
  match v with VStr s => Text.truthy s | _ => false end.

(** Modelled from the spec: every required field is present and well formed
    (section 3). *)
Definition complete (p : t) : bool :=
  is_nonempty_text (name p) && is_text (description p) &&
  match price p, available p, category p with
  | Some _, Some _, Some _ => true
  | _, _, _ => false
  end.

(** Modelled from the spec: [find(id)] (section 4.1) returns the Product with
    that id, or an absent result if none exists; it does not raise. *)
Definition find (i : Z) (rows : list t) : option t :=
  List.find (has_id i) rows.

(** Modelled from the spec: [all()] returns every Product. *)
Definition all (rows : list t) : list t := rows.

(** Modelled from the spec: [find_by_name(name)], case-sensitive exact
    match. *)
Definition find_by_name (n : string) (rows : list t) : list t :=
  filter (fun p => match name p with VStr s => String.eqb s n | _ => false end)
         rows.

(** Modelled from the spec: [find_by_category(category)], exact match on the
    enumeration value. *)
Definition find_by_category (c : Category) (rows : list t) : list t :=
  filter (fun p => match category p with
                   | Some c' => String.eqb c' c
                   | None => false
                   end) rows.

(** Modelled from the spec: [find_by_availability(flag)], exact match on the
    boolean. *)
Definition find_by_availability (flag : bool) (rows : list t) : list t :=
  filter (fun p => match available p with
                   | Some b => Bool.eqb b flag
                   | None => false
                   end) rows.

(** Modelled from the spec: [delete()] removes the row matching [id];
    deleting a row that does not exist is a no-op. *)
Definition delete (self : t) (rows : list t) : list t :=
  match id self with
  | Some i => filter (fun p => negb (has_id i p)) rows
  | None => rows
  end.

(** Modelled from the spec: [update()] requires an existing [id] and persists
    the current field values to the matching row; [None] when [id] is unset or
    no row has it. *)
Definition update (self : t) (rows : list t) : option (list t) :=
  match id self with
  | Some i =>
      if existsb (has_id i) rows
      then Some (map (fun p => if has_id i p then self else p) rows)
      else None
  | None => None
  end.

(** Modelled from the spec: [create()] inserts a new row under the key the
    store generates and assigns that key to the instance (an [id] supplied by
    the caller is overwritten); [None] when a required field is missing or
    malformed. *)
Definition create (self : t) (next : Z) (rows : list t) : option (t * list t) :=
  if complete self
  then let self' := set_id (Some next) self in Some (self', (rows ++ [self'])%list)
  else None.

End Product.

(* ================================================================== *)
(** * Requests, responses, the world and the handler monad            *)
(* ================================================================== *)

(** Calls made into [service.models], in the order they happen. *)
Inductive call : Type :=
| Call_deserialize (data : value)
| Call_create
| Call_update (id : option Z)
| Call_delete (id : option Z)
| Call_find (id : Z)
| Call_all
| Call_find_by_name (name : string)
| Call_find_by_category (c : Category)
| Call_find_by_availability (flag : bool).

Record world := mk_world {
  rows : list Product.t;      (* the product table *)
  next_id : Z;                (* the next generated key *)
  calls : list call           (* model calls made so far *)
}.

Definition log (c : call) (w : world) : world :=
  mk_world (rows w) (next_id w) (calls w ++ [c])%list.

Definition set_rows (r : list Product.t) (w : world) : world :=
  mk_world r (next_id w) (calls w).

Record request := mk_request {
  headers : list (string * string);
  args : list (string * string);    (* query string, in order *)
  json : option value;              (* the body, when it parses as JSON *)
  host_url : string
}.

Inductive payload : Type :=
| Json (v : value)
| Raw (s : string).

Record response := mk_response {
  body : payload;
  status : Z;
  resp_headers : list (string * string)
}.

Inductive outcome (A : Type) : Type :=
| Return (a : A)
| Abort (code : Z) (description : string)
| Raise (e : exn).

Arguments Return {A} a.
Arguments Abort {A} code description.
Arguments Raise {A} e.

Definition M (A : Type) : Type := world -> outcome A * world.

Definition ret {A : Type} (a : A) : M A := fun w => (Return a, w).

Definition bind {A B : Type} (m : M A) (k : A -> M B) : M B :=
  fun w =>
    match m w with
    | (Return a, w') => k a w'
    | (Abort c d, w') => (Abort c d, w')
    | (Raise e, w') => (Raise e, w')
    end.

(** [abort(code, description)] *)
Definition abort {A : Type} (code : Z) (description : string) : M A :=
  fun w => (Abort code description, w).

Definition raise {A : Type} (e : exn) : M A := fun w => (Raise e, w).

(** [try: m  except AttributeError: h] *)
Definition except_AttributeError {A : Type} (m : M A) (h : M A) : M A :=
  fun w =>
    match m w with
    | (Raise (AttributeError _), w') => h w'
    | r => r
    end.

Declare Scope handler_scope.
Delimit Scope handler_scope with handler.
Notation "x <- m ;; k" := (bind m (fun x => k))
  (at level 100, m at next level, right associativity) : handler_scope.
Notation "m ;; k" := (bind m (fun _ => k))
  (at level 100, right associativity) : handler_scope.

(** Status codes of [service.common.status]. *)
Definition HTTP_200_OK : Z := 200.
Definition HTTP_201_CREATED : Z := 201.
Definition HTTP_204_NO_CONTENT : Z := 204.
Definition HTTP_400_BAD_REQUEST : Z := 400.
Definition HTTP_404_NOT_FOUND : Z := 404.
Definition HTTP_415_UNSUPPORTED_MEDIA_TYPE : Z := 415.

(** [request.headers]: header names compare without regard to case. *)
Fixpoint headers_get (k : string) (hs : list (string * string)) : option string :=
  match hs with
  | [] => None
  | (k', v) :: hs' =>
      if Text.eqb_nocase k' k then Some v else headers_get k hs'
  end.

(** [request.args.get(k)]: the first value given for [k]. *)
Definition args_get (k : string) (req : request) : option string :=
  assoc k (args req).

(** [if o:] for an optional string: the string itself when it is there and
    not empty. *)
Definition truthy_arg (o : option string) : option string :=
  match o with
  | Some s => if Text.truthy s then Some s else None
  | None => None
  end.

(** [jsonify(v), code] *)
Definition jsonify (v : value) (code : Z) : response :=
  mk_response (Json v) code [].

(** Modelled from the spec: the status a client sees.  A returned response
    and an [abort] carry their own code; the error handlers of the service
    (not among the sources) turn a validation error into 400 (section 7), and
    any other exception surfaces as a server error. *)
Definition http_status (o : outcome response) : Z :=
  match o with
  | Return r => status r
  | Abort c _ => c
  | Raise (DataValidationError _) => HTTP_400_BAD_REQUEST
  | Raise (AttributeError _) => 500
  end.

(* ================================================================== *)
(** * Deserialization and the route handlers                          *)
(* ================================================================== *)

Section Service.

(** The member names declared by the [Category] enumeration of
    [service/models.py] (CLOTHS, FOOD, ...).  The declaration is not among the
    sources, so the names are a parameter of the development. *)
Variable Category_names : list string.

(** Python's [str.upper] and [str.lower].  They follow the Unicode case
    tables (the long s, U+017F, upper-cases to S), which are not modelled: the
    two functions are parameters of the development. *)
Variable str_upper : string -> string.
Variable str_lower : string -> string.

(** Equality of two strings once both are upper-cased. *)
Definition match_nocase (a b : string) : bool :=
  String.eqb (str_upper a) (str_upper b).

(** [getattr(Category, attr)]: the member called [attr], or nothing (an
    [AttributeError] in Python) when no member has that name.  The routes look
    up upper-cased names only, and every other attribute of an enumeration
    class has a lower-case letter in its name. *)
Definition getattr_Category (attr : string) : option Category :=
  if existsb (String.eqb attr) Category_names then Some attr else None.

Definition need {A : Type} (msg : string) (o : option A) : string + A :=
  match o with
  | Some a => inr a
  | None => inl msg
  end.

(** Modelled from the spec: a genuine boolean, nothing else (section 4.2). *)
Definition as_bool (v : value) : option bool :=
  match v with VBool b => Some b | _ => None end.

(** Modelled from the spec: the declared member whose label the text is
    (section 4.2). *)
Definition as_category (v : value) : option Category :=
  match v with VStr label => getattr_Category label | _ => None end.

(** Modelled from the spec: a value that parses as a decimal (section 4.2),
    which is a decimal literal or an integer. *)
Definition as_decimal (v : value) : option Decimal.t :=
  match v with
  | VStr s => Decimal.of_string s
  | VInt z => Some (Decimal.mk z 0)
  | _ => None
  end.

Notation "'check' x ':=' e 'in' k" :=
  (match e with inr x => k | inl msg => inl msg end)
  (at level 10, x name, e at level 100, k at level 200, only parsing).

(** Modelled from the spec: the checks of [deserialize] (section 4.2), in
    the order the spec lists them: the five required keys, a genuine boolean,
    a declared category label, a price that parses as a decimal.  The result
    is the assignment to perform. *)
Definition validate (data : value) : string + (Product.t -> Product.t) :=
  check n := need "Invalid product: missing name" (dict_get "name" data) in
  check d := need "Invalid product: missing description"
                  (dict_get "description" data) in
  check p := need "Invalid product: missing price" (dict_get "price" data) in
  check a := need "Invalid product: missing available"
                  (dict_get "available" data) in
  check c := need "Invalid product: missing category"
                  (dict_get "category" data) in
  check b := need "Invalid type for boolean [available]" (as_bool a) in
  check cat := need "Invalid category" (as_category c) in
  check pr := need "Invalid price" (as_decimal p) in
  inr (fun self =>
         Product.mk (Product.id self) n d (Some pr) (Some b) (Some cat)).

(** Modelled from the spec: [Product.deserialize(data)] of
    [service/models.py], which is not among the sources (section 4.2).  It
    fails with a validation error when a required key is absent, when
    [available] is not a genuine boolean, when [category] does not match a
    declared label, or when [price] cannot be parsed as a decimal; a failure
    leaves the target as it was.  On success it populates all fields of the
    target in place and never assigns [id] from the payload.  The result is
    the target after the call, with the exception raised, if any. *)
Definition deserialize (self : Product.t) (data : value)
  : Product.t * option exn :=
  match validate data with
  | inr assign => (assign self, None)
  | inl msg => (self, Some (DataValidationError msg))
  end.

(** ** Calls into the model, as handler steps *)

(** [product.deserialize(data)] as a step, for the [deserialize] of whatever
    model the routes import: the call is logged, the target comes back
    mutated, and an exception ends the handler. *)
Definition Product_deserialize_with
           (model_deserialize : Product.t -> value -> Product.t * option exn)
           (self : Product.t) (data : value) : M Product.t :=
  fun w =>
    match model_deserialize self data with
    | (self', None) => (Return self', log (Call_deserialize data) w)
    | (_, Some e) => (Raise e, log (Call_deserialize data) w)
    end.

Definition Product_deserialize (self : Product.t) (data : value)
  : M Product.t :=
  Product_deserialize_with deserialize self data.

Definition Product_find (i : Z) : M (option Product.t) :=
  fun w => (Return (Product.find i (rows w)), log (Call_find i) w).

Definition Product_create (self : Product.t) : M Product.t :=
  fun w =>
    match Product.create self (next_id w) (rows w) with
    | Some (self', rows') =>
        (Return self', mk_world rows' (next_id w + 1) (calls w ++ [Call_create]))
    | None =>
        (Raise (DataValidationError "Invalid product"), log Call_create w)
    end.

Definition Product_update (self : Product.t) : M unit :=
  fun w =>
    match Product.update self (rows w) with
    | Some rows' =>
        (Return tt, set_rows rows' (log (Call_update (Product.id self)) w))
    | None =>
        (Raise (DataValidationError "Update called with no matching row"),
         log (Call_update (Product.id self)) w)
    end.

Definition Product_delete (self : Product.t) : M unit :=
  fun w =>
    (Return tt,
     set_rows (Product.delete self (rows w))
              (log (Call_delete (Product.id self)) w)).

Definition Product_all : M (list Product.t) :=
  fun w => (Return (Product.all (rows w)), log Call_all w).

Definition Product_find_by_name (n : string) : M (list Product.t) :=
  fun w => (Return (Product.find_by_name n (rows w)),
            log (Call_find_by_name n) w).

Definition Product_find_by_category (c : Category) : M (list Product.t) :=
  fun w => (Return (Product.find_by_category c (rows w)),
            log (Call_find_by_category c) w).

Definition Product_find_by_availability (flag : bool) : M (list Product.t) :=
  fun w => (Return (Product.find_by_availability flag (rows w)),
            log (Call_find_by_availability flag) w).

(** [getattr(Category, attr)] as a step: raises [AttributeError]. *)
Definition Category_getattr (attr : string) : M Category :=
  match getattr_Category attr with
  | Some c => ret c
  | None => raise (AttributeError attr)
  end.

(** [request.get_json()]: a body that is not JSON is a bad request. *)
Definition get_json (req : request) : M value :=
  match json req with
  | Some v => ret v
  | None => abort HTTP_400_BAD_REQUEST "Failed to decode JSON object"
  end.

(** [url_for("get_product", product_id=i, _external=True)] *)
Definition url_for_get_product (req : request) (i : option Z) : string :=
  host_url req ++ "/products/" ++
  match i with Some z => Text.str_Z z | None => "None" end.

(** [x in xs] for a string and a list of strings. *)
Definition in_list (x : string) (xs : list string) : bool :=
  existsb (String.eqb x) xs.

(** [str(o)] of an optional string inside an f-string. *)
Definition fmt_opt (o : option string) : string :=
  match o with Some s => s | None => "None" end.

(** ** routes.py *)

Local Open Scope handler_scope.

Definition healthcheck : M response :=
  ret (jsonify (VDict [("status", VInt 200); ("message", VStr "OK")])
               HTTP_200_OK).

Definition check_content_type (content_type : string) (req : request)
  : M unit :=
  match headers_get "Content-Type" (headers req) with
  | None =>
      abort HTTP_415_UNSUPPORTED_MEDIA_TYPE
            ("Content-Type must be " ++ content_type)
  | Some v =>
      if negb (String.eqb v content_type)
      then abort HTTP_415_UNSUPPORTED_MEDIA_TYPE
                 ("Content-Type must be " ++ content_type)
      else ret tt
  end.

Definition create_products (req : request) : M response :=
  check_content_type "application/json" req ;;
  data <- get_json req ;;
  product <- Product_deserialize Product.new data ;;
  product <- Product_create product ;;
  let location_url := url_for_get_product req (Product.id product) in
  ret (mk_response (Json (Product.serialize product)) HTTP_201_CREATED
                   [("Location", location_url)]).

Definition not_found_message (product_id : Z) : string :=
  "Product with id '" ++ Text.str_Z product_id ++ "' was not found.".

Definition get_product (product_id : Z) : M response :=
  product <- Product_find product_id ;;
  match product with
  | None => abort HTTP_404_NOT_FOUND (not_found_message product_id)
  | Some product => ret (jsonify (Product.serialize product) HTTP_200_OK)
  end.

(** [update_products] of routes.py, over the [deserialize] of the model the
    routes import. *)
Definition update_products_with
           (model_deserialize : Product.t -> value -> Product.t * option exn)
           (product_id : Z) (req : request) : M response :=
  check_content_type "application/json" req ;;
  product <- Product_find product_id ;;
  match product with
  | None => abort HTTP_404_NOT_FOUND (not_found_message product_id)
  | Some product =>
      data <- get_json req ;;
      product <- Product_deserialize_with model_deserialize product data ;;
      let product := Product.set_id (Some product_id) product in
      Product_update product ;;
      ret (jsonify (Product.serialize product) HTTP_200_OK)
  end.

(** [update_products] with the [deserialize] of the Product model. *)
Definition update_products (product_id : Z) (req : request) : M response :=
  update_products_with deserialize product_id req.

Definition delete_products (product_id : Z) : M response :=
  product <- Product_find product_id ;;
  match product with
  | Some product => Product_delete product
  | None => ret tt
  end ;;
  ret (mk_response (Raw "") HTTP_204_NO_CONTENT []).

Definition list_products (req : request) : M response :=
  let name := args_get "name" req in
  let category := args_get "category" req in
  let available := args_get "available" req in
  products <-
    except_AttributeError
      (match truthy_arg name with
       | Some name => Product_find_by_name name
       | None =>
           match truthy_arg category with
           | Some category =>
               category_enum <- Category_getattr (str_upper category) ;;
               Product_find_by_category category_enum
           | None =>
               match truthy_arg available with
               | Some available =>
                   let available_value :=
                     in_list (str_lower available) ["true"; "yes"; "1"] in
                   Product_find_by_availability available_value
               | None => Product_all
               end
           end
       end)
      (abort HTTP_400_BAD_REQUEST ("Invalid category: " ++ fmt_opt category)) ;;
  let results := map Product.serialize products in
  ret (jsonify (VList results) HTTP_200_OK).

(** ** The listing endpoint, in the words of its description *)

(** The filter a request selects, by the precedence name > category >
    available > none; a parameter counts when it is present with a value that
    is not empty. *)
Inductive selection : Type :=
| By_name (name : string)
| By_category (category : string)
| By_availability (available : string)
| Unfiltered.

Definition select (req : request) : selection :=
  match truthy_arg (args_get "name" req) with
  | Some n => By_name n
  | None =>
      match truthy_arg (args_get "category" req) with
      | Some c => By_category c
      | None =>
          match truthy_arg (args_get "available" req) with
          | Some v => By_availability v
          | None => Unfiltered
          end
      end
  end.

(** A 200 response carrying the JSON array of the serialized products. *)
Definition listing (products : list Product.t) : response :=
  jsonify (VList (map Product.serialize products)) HTTP_200_OK.

(** What the listing endpoint answers: one query for the selected filter and
    its listing, except that a category value naming no declared member is
    answered 400 without any query. *)
Definition list_products_spec (req : request) (w : world)
  : outcome response * world :=
  match select req with
  | By_name n =>
      (Return (listing (Product.find_by_name n (rows w))),
       log (Call_find_by_name n) w)
  | By_category c =>
      match getattr_Category (str_upper c) with
      | Some cat =>
          (Return (listing (Product.find_by_category cat (rows w))),
           log (Call_find_by_category cat) w)
      | None => (Abort HTTP_400_BAD_REQUEST ("Invalid category: " ++ c), w)
      end
  | By_availability v =>
      let flag := in_list (str_lower v) ["true"; "yes"; "1"] in
      (Return (listing (Product.find_by_availability flag (rows w))),
       log (Call_find_by_availability flag) w)
  | Unfiltered =>
      (Return (listing (Product.all (rows w))), log Call_all w)
  end.

(** The listing endpoint as first described: whatever the parameters, one
    query is made and its listing is returned with status 200. *)
Definition always_lists (req : request) (w : world) : Prop :=
  exists (q : call) (products : list Product.t),
    list_products req w = (Return (listing products), log q w).

(** A Product is valid when its name is a non-empty text, its price, its
    availability flag and its category are set, and the category is a declared
    member. *)
Definition valid (x : Product.t) : Prop :=
  (exists n, Product.name x = VStr n /\ n <> "") /\
  (exists d, Product.price x = Some d) /\
  (exists b, Product.available x = Some b) /\
  (exists c, Product.category x = Some c /\ In c Category_names).

(** Equality of two optional prices as decimal values. *)
Definition same_price (a b : option Decimal.t) : Prop :=
  match a, b with
  | Some x, Some y => Qeq (Decimal.value x) (Decimal.value y)
  | None, None => True
  | _, _ => False
  end.

(** The keys [deserialize] requires. *)
Definition required_keys : list string :=
  ["name"; "description"; "price"; "available"; "category"].

End Service.

(* ================================================================== *)
(** * Sample data                                                     *)
(* ================================================================== *)

Module Sample.

Definition names : list string := ["CLOTHS"; "FOOD"].

Definition fedora : Product.t :=
  Product.mk (Some 1) (VStr "Fedora") (VStr "A red hat")
             (Some (Decimal.mk 1250 2)) (Some true) (Some "CLOTHS").

Definition bread : Product.t :=
  Product.mk (Some 2) (VStr "Bread") (VStr "A loaf")
             (Some (Decimal.mk 199 2)) (Some false) (Some "FOOD").

Definition store : world := mk_world [fedora; bread] 3 [].

Definition empty_store : world := mk_world [] 1 [].

Definition get (query : list (string * string)) : request :=
  mk_request [] query None "http://localhost".

Definition send (content_type : option string) (data : value) : request :=
  mk_request
    match content_type with
    | Some v => [("Content-Type", v)]
    | None => []
    end
    [] (Some data) "http://localhost".

(** The payload of [test_deserialize_missing_fields]. *)
Definition only_name : value := VDict [("name", VStr "Test")].

(** The payload of [test_deserialize_invalid_types]. *)
Definition bad_data : value :=
  VDict [("name", VStr "Test"); ("description", VStr "Bad");
         ("price", VStr "10.00"); ("available", VStr "yes");
         ("category", VStr "FOOD")].

(** The payload of [test_deserialize_valid_data], with an [id] added. *)
Definition good_data : value :=
  VDict [("id", VInt 77); ("name", VStr "TestProduct");
         ("description", VStr "TestDescription"); ("price", VStr "99.99");
         ("available", VBool true); ("category", VStr "FOOD")].

(** A [deserialize] that, unlike the one the spec describes, takes [id] from
    the payload when the payload has one. *)
Definition deserialize_with_id (self : Product.t) (data : value)
  : Product.t * option exn :=
  match deserialize names self data with
  | (p, None) =>
      match dict_get "id" data with
      | Some (VInt i) => (Product.set_id (Some i) p, None)
      | _ => (p, None)
      end
  | refused => refused
  end.

End Sample.

(* ================================================================== *)
(** * The helpers of the route tests                                  *)
(* ================================================================== *)

Module TestClient.

(** [self.client.post(BASE_URL, json=data)]: the test client sends [data] as
    the JSON body and sets the JSON content type. *)
Definition post_json (data : value) : request :=
  mk_request [("Content-Type", "application/json")] [] (Some data)
             "http://localhost".

(** [self.client.get(BASE_URL)] *)
Definition get_base : request := mk_request [] [] None "http://localhost".

(** [response.get_json()["id"]] of a returned response, when it is an
    integer. *)
Definition response_id (o : outcome response) : option Z :=
  match o with
  | Return r =>
      match body r with
      | Json v =>
          match dict_get "id" v with
          | Some (VInt i) => Some i
          | _ => None
          end
      | Raw _ => None
      end
  | _ => None
  end.

(** [_create_products] of [tests/test_routes.py]: posts the serialization of
    each Product the factory yields, asserts the answer is 201 and gives the
    Product the id of the answer.  The Products of [ProductFactory], which is
    not among the sources, are the argument [factory]; [None] stands for a
    failed assertion. *)
Fixpoint _create_products (names : list string) (factory : list Product.t)
         (w : world) : option (list Product.t) * world :=
  match factory with
  | [] => (Some [], w)
  | product :: rest =>
      let (response, w1) :=
        create_products names (post_json (Product.serialize product)) w in
      if negb (http_status response =? HTTP_201_CREATED) then (None, w1)
      else
        match response_id response with
        | None => (None, w1)
        | Some i =>
            let product := Product.set_id (Some i) product in
            match _create_products names rest w1 with
            | (Some products, w2) => (Some (product :: products), w2)
            | (None, w2) => (None, w2)
            end
        end
  end.

(** [get_product_count] of [tests/test_routes.py]: the length of the array
    GET /products returns, after asserting the status is 200. *)
Definition get_product_count (names : list string)
           (upper lower : string -> string) (w : world)
  : option nat * world :=
  let (response, w1) := list_products names upper lower get_base w in
  if negb (http_status response =? HTTP_200_OK) then (None, w1)
  else
    match response with
    | Return r =>
        match body r with
        | Json (VList items) => (Some (List.length items), w1)
        | _ => (None, w1)
        end
    | _ => (None, w1)
    end.

End TestClient.

(* ================================================================== *)
(** * Facts about text and decimals                                   *)
(* ================================================================== *)

Example str_Z_12 : Text.str_Z 12 = "12". Proof. reflexivity. Qed.
Example str_Z_0 : Text.str_Z 0 = "0". Proof. reflexivity. Qed.
Example str_Z_neg : Text.str_Z (-305) = "-305". Proof. reflexivity. Qed.
Example to_string_1250 : Decimal.to_string (Decimal.mk 1250 2) = "12.50".
Proof. reflexivity. Qed.
Example to_string_neg : Decimal.to_string (Decimal.mk (-5) 2) = "-0.05".
Proof. reflexivity. Qed.
Example of_string_9999 : Decimal.of_string "99.99" = Some (Decimal.mk 9999 2).
Proof. reflexivity. Qed.
Example of_string_no_fraction : Decimal.of_string "12." = None.
Proof. reflexivity. Qed.
Example of_string_not_a_number : Decimal.of_string "abc" = None.
Proof. reflexivity. Qed.
Example upper_bogus : Text.upper "bogus" = "BOGUS". Proof. reflexivity. Qed.

Lemma digit_cases (d : N) :
  (d < 10)%N ->
  d = 0%N \/ d = 1%N \/ d = 2%N \/ d = 3%N \/ d = 4%N \/
  d = 5%N \/ d = 6%N \/ d = 7%N \/ d = 8%N \/ d = 9%N.
Proof. lia. Qed.

Ltac each_digit H :=
  apply digit_cases in H;
  repeat (destruct H as [H | H]; [subst; reflexivity |]);
  subst; reflexivity.

Lemma ascii_to_digit_to_ascii (d : N) :
  (d < 10)%N -> Text.ascii_to_digit (Text.digit_to_ascii d) = Some d.
Proof. intros H. each_digit H. Qed.

Lemma digit_is_not_point (d : N) :
  (d < 10)%N -> Ascii.eqb (Text.digit_to_ascii d) "." = false.
Proof. intros H. each_digit H. Qed.

Lemma digit_is_not_minus (d : N) :
  (d < 10)%N -> Ascii.eqb (Text.digit_to_ascii d) "-" = false.
Proof. intros H. each_digit H. Qed.

Lemma mod10_lt (n : N) : (n mod 10 < 10)%N.
Proof. apply N.mod_lt. discriminate. Qed.

(** Shifting in one more low-order digit. *)
Lemma shift_digit (acc n : N) (w : nat) :
  (10 * (acc * 10 ^ N.of_nat w + (n / 10) mod 10 ^ N.of_nat w) + n mod 10
   = acc * 10 ^ N.of_nat (S w) + n mod 10 ^ N.of_nat (S w))%N.
Proof.
  rewrite Nat2N.inj_succ, N.pow_succ_r'.
  rewrite (N.Div0.mod_mul_r n 10 (10 ^ N.of_nat w)).
  lia.
Qed.

Lemma read_int_digits_fixed (w : nat) :
  forall (n : N) (tail : string) (acc : N),
    Decimal.read_int (Text.digits_fixed w n tail) acc =
    Decimal.read_int tail (acc * 10 ^ N.of_nat w + n mod 10 ^ N.of_nat w)%N.
Proof.
  induction w as [| w IH]; intros n tail acc.
  - simpl. rewrite N.mod_1_r. f_equal. lia.
  - cbn [Text.digits_fixed]. rewrite IH. cbn [Decimal.read_int].
    rewrite digit_is_not_point, ascii_to_digit_to_ascii by apply mod10_lt.
    f_equal. apply shift_digit.
Qed.

Lemma read_frac_digits_fixed (w : nat) :
  forall (n : N) (tail : string) (acc : N) (sc : nat),
    Decimal.read_frac (Text.digits_fixed w n tail) acc sc =
    Decimal.read_frac tail
      (acc * 10 ^ N.of_nat w + n mod 10 ^ N.of_nat w)%N (sc + w).
Proof.
  induction w as [| w IH]; intros n tail acc sc.
  - simpl. rewrite N.mod_1_r, Nat.add_0_r. f_equal. lia.
  - cbn [Text.digits_fixed]. rewrite IH. cbn [Decimal.read_frac].
    rewrite ascii_to_digit_to_ascii by apply mod10_lt.
    rewrite Nat.add_succ_r. f_equal. apply shift_digit.
Qed.

(** A non-empty run of digits starts with a digit. *)
Lemma digits_fixed_head (w : nat) :
  forall (n : N) (tail : string),
    exists (d : N) (rest : string),
      (d < 10)%N /\
      Text.digits_fixed (S w) n tail = String (Text.digit_to_ascii d) rest.
Proof.
  induction w as [| w IH]; intros n tail.
  - exists (n mod 10)%N, tail. split; [apply mod10_lt | reflexivity].
  - change (Text.digits_fixed (S (S w)) n tail)
      with (Text.digits_fixed (S w) (n / 10)
              (String (Text.digit_to_ascii (n mod 10)) tail)).
    apply IH.
Qed.

Lemma num_digits_aux_bound (fuel : nat) :
  forall n : N,
    (n < 2 ^ N.of_nat fuel)%N ->
    (n < 10 ^ N.of_nat (Text.num_digits_aux fuel n))%N.
Proof.
  induction fuel as [| f IH]; intros n Hn.
  - simpl in *. lia.
  - cbn [Text.num_digits_aux].
    destruct (N.ltb_spec n 10) as [Hlt | Hge].
    + simpl. lia.
    + rewrite Nat2N.inj_succ, N.pow_succ_r' in Hn.
      assert (Hdiv : (n / 10 < 2 ^ N.of_nat f)%N).
      { apply N.Div0.div_lt_upper_bound. lia. }
      specialize (IH _ Hdiv).
      rewrite Nat2N.inj_succ, N.pow_succ_r'.
      pose proof (N.div_mod n 10 ltac:(discriminate)) as Hdm.
      pose proof (mod10_lt n). lia.
Qed.

Lemma size_nat_bound (n : N) : (n < 2 ^ N.of_nat (N.size_nat n))%N.
Proof.
  replace (N.of_nat (N.size_nat n)) with (N.size n).
  - apply N.size_gt.
  - destruct n as [| p]; [reflexivity |].
    simpl. induction p; simpl; lia.
Qed.

Lemma num_digits_bound (n : N) : (n < 10 ^ N.of_nat (Text.num_digits n))%N.
Proof. apply num_digits_aux_bound, size_nat_bound. Qed.

Lemma num_digits_pos (n : N) : exists k, Text.num_digits n = S k.
Proof.
  unfold Text.num_digits. destruct (N.size_nat n) as [| f]; simpl.
  - now exists O.
  - destruct (n <? 10)%N; eauto.
Qed.

(** Reading back what [str] wrote in front of [tail]. *)
Lemma read_int_str_N (n : N) (tail : string) :
  Decimal.read_int (Text.str_N_onto n tail) 0 = Decimal.read_int tail n.
Proof.
  unfold Text.str_N_onto. rewrite read_int_digits_fixed.
  rewrite N.mod_small by apply num_digits_bound. f_equal.
Qed.

Lemma str_N_head (n : N) (tail : string) :
  exists (d : N) (rest : string),
    (d < 10)%N /\ Text.str_N_onto n tail = String (Text.digit_to_ascii d) rest.
Proof.
  unfold Text.str_N_onto. destruct (num_digits_pos n) as [k ->].
  apply digits_fixed_head.
Qed.

Lemma read_unsigned_to_string (n : N) (sc : nat) :
  let p := (10 ^ N.of_nat sc)%N in
  let frac :=
    match sc with
    | O => EmptyString
    | S _ => String "." (Text.digits_fixed sc (n mod p) "")
    end in
  Decimal.read_unsigned (Text.str_N_onto (n / p) frac) = Some (n, sc).
Proof.
  intros p frac. unfold Decimal.read_unsigned.
  destruct (str_N_head (n / p) frac) as (d0 & rest & Hd0 & Hhead).
  rewrite Hhead, ascii_to_digit_to_ascii by exact Hd0.
  rewrite <- Hhead, read_int_str_N.
  subst frac. destruct sc as [| sc'].
  - simpl. subst p. simpl. now rewrite N.div_1_r.
  - cbn [Decimal.read_int]. rewrite Ascii.eqb_refl.
    destruct (digits_fixed_head sc' (n mod p) "") as (d1 & rest1 & _ & Hfrac).
    rewrite Hfrac, <- Hfrac.
    rewrite read_frac_digits_fixed. fold p. cbn [Decimal.read_frac].
    rewrite N.Div0.mod_mod. do 2 f_equal.
    pose proof (N.div_mod n p) as Hdm.
    assert (p <> 0%N) by (subst p; apply N.pow_nonzero; discriminate).
    specialize (Hdm H). lia.
Qed.

(** Parsing the string form of a decimal gives the decimal back. *)
Lemma of_string_to_string (d : Decimal.t) :
  Decimal.of_string (Decimal.to_string d) = Some d.
Proof.
  destruct d as [u sc]. unfold Decimal.to_string, Decimal.of_string.
  cbn [Decimal.unscaled Decimal.scale].
  pose proof (read_unsigned_to_string (Z.abs_N u) sc) as Hread.
  cbv zeta in Hread.
  destruct (Z.ltb_spec u 0) as [Hneg | Hpos].
  - rewrite Ascii.eqb_refl, Hread. f_equal. f_equal. lia.
  - match type of Hread with
    | Decimal.read_unsigned (Text.str_N_onto ?q ?f) = _ =>
        destruct (str_N_head q f) as (d0 & rest & Hd0 & Hhead)
    end.
    rewrite Hhead, digit_is_not_minus by exact Hd0.
    rewrite <- Hhead, Hread. f_equal. f_equal. lia.
Qed.

Lemma upper_ascii_idem (c : ascii) :
  Text.upper_ascii (Text.upper_ascii c) = Text.upper_ascii c.
Proof. destruct c as [[] [] [] [] [] [] [] []]; reflexivity. Qed.

Lemma upper_idem (s : string) : Text.upper (Text.upper s) = Text.upper s.
Proof.
  induction s as [| c s IH]; simpl; [reflexivity |].
  now rewrite upper_ascii_idem, IH.
Qed.

Lemma prefix_append (s t : string) : String.prefix s (s ++ t) = true.
Proof.
  induction s as [| c s IH]; simpl.
  - now destruct t.
  - destruct (ascii_dec c c) as [_ | Hne]; [exact IH | now elim Hne].
Qed.

Lemma contains_append (sub pre post : string) :
  Text.contains sub (pre ++ sub ++ post) = true.
Proof.
  induction pre as [| c pre IH].
  - cbn [append]. pose proof (prefix_append sub post) as Hpre.
    destruct (sub ++ post); cbn [Text.contains]; now rewrite Hpre.
  - change (String c pre ++ sub ++ post) with (String c (pre ++ sub ++ post)).
    cbn [Text.contains]. rewrite IH. apply orb_true_r.
Qed.

Lemma append_assoc (a b c : string) : (a ++ b) ++ c = a ++ (b ++ c).
Proof. induction a as [| x a IH]; simpl; [reflexivity | now rewrite IH]. Qed.

Lemma in_list_In (x : string) (xs : list string) :
  in_list x xs = true <-> In x xs.
Proof.
  unfold in_list. rewrite existsb_exists. split.
  - intros (y & Hy & Heq). apply String.eqb_eq in Heq. now subst.
  - intros H. exists x. split; [exact H | apply String.eqb_refl].
Qed.

(* ================================================================== *)
(** * Facts about the model                                           *)
(* ================================================================== *)

Lemma getattr_Category_declared (names : list string) (c : string) :
  In c names -> getattr_Category names c = Some c.
Proof.
  intros Hin. unfold getattr_Category.
  replace (existsb (String.eqb c) names) with true; [reflexivity |].
  symmetry. apply existsb_exists. exists c.
  split; [exact Hin | apply String.eqb_refl].
Qed.

Lemma getattr_Category_Some (names : list string) (attr : string) (c : Category) :
  getattr_Category names attr = Some c -> c = attr /\ In attr names.
Proof.
  unfold getattr_Category. destruct (existsb _ _) eqn:E; [| discriminate].
  intros [= <-]. split; [reflexivity |].
  apply existsb_exists in E as (y & Hy & Heq).
  apply String.eqb_eq in Heq. now subst.
Qed.

(** A payload that fails validation is refused and the target is kept. *)
Lemma deserialize_refused (names : list string) (self : Product.t)
      (data : value) (msg : string) :
  validate names data = inl msg ->
  deserialize names self data = (self, Some (DataValidationError msg)).
Proof. intros H. unfold deserialize. now rewrite H. Qed.

Lemma validate_missing_key (names : list string) (data : value) (k : string) :
  In k required_keys -> dict_get k data = None ->
  exists msg, validate names data = inl msg.
Proof.
  intros Hk Hnone. unfold validate, need.
  simpl in Hk.
  destruct Hk as [<- | [<- | [<- | [<- | [<- | []]]]]]; rewrite Hnone;
    repeat match goal with
           | |- context [match dict_get ?key data with _ => _ end] =>
               destruct (dict_get key data)
           end; eauto.
Qed.

Lemma validate_not_bool (names : list string) (data v : value) :
  dict_get "available" data = Some v ->
  as_bool v = None ->
  exists msg, validate names data = inl msg.
Proof.
  intros Hget Hbool. unfold validate, need. rewrite Hget, Hbool.
  repeat match goal with
         | |- context [match dict_get ?key data with _ => _ end] =>
             destruct (dict_get key data)
         end; eauto.
Qed.

Lemma as_bool_None (v : value) : (forall b, v <> VBool b) -> as_bool v = None.
Proof. intros H. destruct v; try reflexivity. now elim (H b). Qed.

Lemma find_has_id (i : Z) (rows : list Product.t) (p : Product.t) :
  Product.find i rows = Some p -> Product.id p = Some i /\ In p rows.
Proof.
  intros H. apply find_some in H as [Hin Hid]. split; [| exact Hin].
  unfold Product.has_id in Hid. destruct (Product.id p) as [j |]; [| discriminate].
  apply Z.eqb_eq in Hid. now subst.
Qed.

Lemma find_absent (i : Z) (rows : list Product.t) :
  (forall p, In p rows -> Product.id p <> Some i) -> Product.find i rows = None.
Proof.
  intros H. unfold Product.find.
  destruct (find (Product.has_id i) rows) as [p |] eqn:E; [| reflexivity].
  apply (find_has_id i rows p) in E as [Hid Hin]. now elim (H p Hin).
Qed.

Lemma filter_without_id (i : Z) (rows : list Product.t) :
  filter (Product.has_id i)
         (filter (fun p => negb (Product.has_id i p)) rows) = [].
Proof.
  induction rows as [| r rows IH]; simpl; [reflexivity |].
  destruct (Product.has_id i r) eqn:E; simpl; [exact IH |].
  now rewrite E.
Qed.

Lemma filter_none_find (i : Z) (rows : list Product.t) :
  filter (Product.has_id i) rows = [] <-> Product.find i rows = None.
Proof.
  unfold Product.find. induction rows as [| r rows IH]; simpl.
  - tauto.
  - destruct (Product.has_id i r); [split; discriminate | exact IH].
Qed.

Lemma find_Some_exists (i : Z) (rows : list Product.t) (p : Product.t) :
  Product.find i rows = Some p -> existsb (Product.has_id i) rows = true.
Proof.
  intros H. apply find_some in H as [Hin Hid].
  apply existsb_exists. now exists p.
Qed.

(** After [update()] the row found under the id is the updated Product. *)
Lemma find_after_update (i : Z) (rows : list Product.t)
      (found result : Product.t) :
  Product.find i rows = Some found ->
  Product.id result = Some i ->
  Product.find i (map (fun r => if Product.has_id i r then result else r) rows)
    = Some result.
Proof.
  intros Hfind Hid.
  assert (Hres : Product.has_id i result = true).
  { unfold Product.has_id. rewrite Hid. apply Z.eqb_refl. }
  unfold Product.find in *.
  induction rows as [| r rows IH]; simpl in *; [discriminate |].
  destruct (Product.has_id i r) eqn:E.
  - now rewrite Hres.
  - rewrite E. now apply IH.
Qed.

(** What [delete_products] leaves behind. *)
Lemma delete_products_run (i : Z) (w : world) :
  exists w',
    delete_products i w =
      (Return (mk_response (Raw "") HTTP_204_NO_CONTENT []), w') /\
    filter (Product.has_id i) (rows w') = [].
Proof.
  unfold delete_products, bind, Product_find, Product_delete, ret.
  destruct (Product.find i (rows w)) as [p |] eqn:E.
  - eexists. split; [reflexivity |]. cbn [rows set_rows log].
    unfold Product.delete.
    apply find_has_id in E as [-> _]. apply filter_without_id.
  - eexists. split; [reflexivity |]. cbn [rows log].
    now apply filter_none_find.
Qed.

Lemma check_content_type_refuses (req : request) (w : world) :
  headers_get "Content-Type" (headers req) <> Some "application/json" ->
  check_content_type "application/json" req w =
    (Abort HTTP_415_UNSUPPORTED_MEDIA_TYPE
           "Content-Type must be application/json", w).
Proof.
  intros H. unfold check_content_type.
  destruct (headers_get "Content-Type" (headers req)) as [v |]; [| reflexivity].
  destruct (String.eqb_spec v "application/json") as [-> | Hne];
    [now elim H | reflexivity].
Qed.

Lemma check_content_type_accepts (req : request) (w : world) :
  headers_get "Content-Type" (headers req) = Some "application/json" ->
  check_content_type "application/json" req w = (Return tt, w).
Proof. intros H. unfold check_content_type. now rewrite H. Qed.

Lemma truthy_arg_nonempty (s : string) : s <> "" -> truthy_arg (Some s) = Some s.
Proof. intros H. destruct s; [now elim H | reflexivity]. Qed.

Lemma truthy_arg_absent_or_empty (o : option string) :
  o = None \/ o = Some "" -> truthy_arg o = None.
Proof. intros [-> | ->]; reflexivity. Qed.

(* ================================================================== *)
(** * Serialization                                                   *)
(* ================================================================== *)

(** C1.  For every valid Product [x] (non-empty name, decimal price, boolean
    available, declared category), deserializing [serialize x] into a fresh
    Product, or into any other target, succeeds and yields a Product whose
    name, description, available and category are those of [x] and whose
    price is the same decimal value. *)
Theorem deserialize_serialize_roundtrip
        (names : list string) (x target : Product.t) :
  valid names x ->
  exists x',
    deserialize names target (Product.serialize x) = (x', None) /\
    Product.name x' = Product.name x /\
    Product.description x' = Product.description x /\
    same_price (Product.price x') (Product.price x) /\
    Product.available x' = Product.available x /\
    Product.category x' = Product.category x.
Proof.
  intros ((n & Hname & _) & (d & Hprice) & (b & Havail) & (c & Hcat & Hin)).
  destruct x as [xi xn xd xp xa xc]. cbn [Product.name Product.price
    Product.available Product.category Product.description] in *. subst.
  unfold deserialize, validate, Product.serialize.
  cbn [dict_get assoc String.eqb Ascii.eqb Bool.eqb from_option need
       Product.id Product.name Product.description Product.price
       Product.available Product.category as_bool as_category as_decimal].
  rewrite (getattr_Category_declared names c Hin), of_string_to_string.
  eexists. split; [reflexivity |].
  cbn [Product.name Product.price Product.available Product.category
       Product.description same_price].
  repeat split; reflexivity.
Qed.

Lemma deserialize_serialize_roundtrip_witness :
  valid Sample.names Sample.fedora /\
  exists x',
    deserialize Sample.names Product.new (Product.serialize Sample.fedora)
      = (x', None) /\
    Product.name x' = Product.name Sample.fedora /\
    Product.description x' = Product.description Sample.fedora /\
    same_price (Product.price x') (Product.price Sample.fedora) /\
    Product.available x' = Product.available Sample.fedora /\
    Product.category x' = Product.category Sample.fedora.
Proof.
  assert (Hvalid : valid Sample.names Sample.fedora).
  { unfold valid. simpl. repeat split.
    - exists "Fedora". split; [reflexivity | discriminate].
    - eexists; reflexivity.
    - eexists; reflexivity.
    - exists "CLOTHS". split; [reflexivity | now left]. }
  split; [exact Hvalid |].
  exact (deserialize_serialize_roundtrip Sample.names Sample.fedora
           Product.new Hvalid).
Defined.

(** Two decimals that print differently can be the same value: the prices
    are compared as numbers. *)
Example same_price_not_by_format :
  same_price (Some (Decimal.mk 125 1)) (Some (Decimal.mk 1250 2)) /\
  Decimal.to_string (Decimal.mk 125 1) <> Decimal.to_string (Decimal.mk 1250 2).
Proof. split; [reflexivity | discriminate]. Qed.

(** C2.  When the mapping lacks one of the required keys [name],
    [description], [price], [available], [category], [deserialize] raises a
    validation error and the target keeps every field it had. *)
Theorem deserialize_missing_key
        (names : list string) (self : Product.t) (data : value) (k : string) :
  In k required_keys ->
  dict_get k data = None ->
  exists msg,
    deserialize names self data = (self, Some (DataValidationError msg)).
Proof.
  intros Hk Hnone.
  destruct (validate_missing_key names data k Hk Hnone) as [msg Hmsg].
  exists msg. now apply deserialize_refused.
Qed.

Lemma deserialize_missing_key_witness :
  exists msg,
    deserialize Sample.names Product.new Sample.only_name
      = (Product.new, Some (DataValidationError msg)).
Proof.
  apply (deserialize_missing_key Sample.names Product.new Sample.only_name
           "description").
  - simpl. right. left. reflexivity.
  - reflexivity.
Defined.

(** C3.  When the value of [available] is not a genuine boolean (the string
    "yes", say), [deserialize] raises a validation error: the value is not
    coerced by truthiness, and the target is left as it was. *)
Theorem deserialize_available_not_bool
        (names : list string) (self : Product.t) (data v : value) :
  dict_get "available" data = Some v ->
  (forall b, v <> VBool b) ->
  exists msg,
    deserialize names self data = (self, Some (DataValidationError msg)).
Proof.
  intros Hget Hv.
  destruct (validate_not_bool names data v Hget (as_bool_None v Hv))
    as [msg Hmsg].
  exists msg. now apply deserialize_refused.
Qed.

Lemma deserialize_available_not_bool_witness :
  exists msg,
    deserialize Sample.names Product.new Sample.bad_data
      = (Product.new, Some (DataValidationError msg)).
Proof.
  apply (deserialize_available_not_bool Sample.names Product.new
           Sample.bad_data (VStr "yes")).
  - reflexivity.
  - intros b. discriminate.
Defined.

(* ================================================================== *)
(** * Routes                                                          *)
(* ================================================================== *)

(** C4.  A GET /products request whose [category] parameter is a non-empty
    string matching no declared Category label, case ignored, and whose
    [name] parameter is absent or empty, is answered 400; no query is made.
    Two strings match, case ignored, when their upper-cased forms are equal;
    [str.upper] is any function that, like Python's, changes nothing in a
    string it has already upper-cased. *)
Theorem list_products_invalid_category
        (names : list string) (upper lower : string -> string)
        (req : request) (w : world) (c : string) :
  (forall s, upper (upper s) = upper s) ->
  args_get "category" req = Some c ->
  c <> "" ->
  (forall l, In l names -> match_nocase upper c l = false) ->
  args_get "name" req = None \/ args_get "name" req = Some "" ->
  list_products names upper lower req w =
    (Abort HTTP_400_BAD_REQUEST ("Invalid category: " ++ c), w) /\
  http_status (fst (list_products names upper lower req w)) = 400.
Proof.
  intros Hidem Hcat Hne Hnomatch Hname.
  assert (Hget : getattr_Category names (upper c) = None).
  { destruct (getattr_Category names (upper c)) as [m |] eqn:E;
      [| reflexivity].
    apply getattr_Category_Some in E as [_ Hin].
    specialize (Hnomatch _ Hin). unfold match_nocase in Hnomatch.
    rewrite Hidem, String.eqb_refl in Hnomatch. discriminate. }
  assert (Hrun : list_products names upper lower req w =
                 (Abort HTTP_400_BAD_REQUEST ("Invalid category: " ++ c), w)).
  { unfold list_products, bind, except_AttributeError.
    rewrite (truthy_arg_absent_or_empty _ Hname), Hcat.
    rewrite (truthy_arg_nonempty c Hne).
    unfold Category_getattr. rewrite Hget. reflexivity. }
  split; [exact Hrun | now rewrite Hrun].
Qed.

Lemma list_products_invalid_category_witness :
  list_products Sample.names Text.upper Text.lower
      (Sample.get [("category", "bogus")]) Sample.store
    = (Abort HTTP_400_BAD_REQUEST "Invalid category: bogus", Sample.store) /\
  http_status (fst (list_products Sample.names Text.upper Text.lower
                      (Sample.get [("category", "bogus")]) Sample.store)) = 400.
Proof.
  apply (list_products_invalid_category Sample.names Text.upper Text.lower
           (Sample.get [("category", "bogus")]) Sample.store "bogus").
  - exact upper_idem.
  - reflexivity.
  - discriminate.
  - intros l [<- | [<- | []]]; reflexivity.
  - left. reflexivity.
Defined.

(** C5.  DELETE /products/{id} answers 204 with an empty body whether or not
    a Product with that id exists; afterwards no row has that id, and a
    second DELETE answers 204 again and leaves the table as it is. *)
Theorem delete_products_idempotent (i : Z) (w : world) :
  let no_content := mk_response (Raw "") HTTP_204_NO_CONTENT [] in
  let once := delete_products i w in
  let twice := delete_products i (snd once) in
  fst once = Return no_content /\
  filter (Product.has_id i) (rows (snd once)) = [] /\
  Product.find i (rows (snd once)) = None /\
  fst twice = Return no_content /\
  rows (snd twice) = rows (snd once).
Proof.
  intros no_content once twice.
  destruct (delete_products_run i w) as (w1 & Hrun1 & Hgone1).
  assert (Hfind : Product.find i (rows w1) = None)
    by now apply filter_none_find.
  subst once twice. rewrite Hrun1. cbn [fst snd].
  repeat split; try assumption.
  - unfold delete_products, bind, Product_find, ret. now rewrite Hfind.
  - unfold delete_products, bind, Product_find, ret. now rewrite Hfind.
Qed.

(** C6.  A PUT /products/{id} request with the JSON content type and a valid
    body, for an id that exists, deserializes the body over the Product found,
    sets its id to the id of the path, persists it with [update()] and answers
    200 with the serialized result, whose id is the id of the path whatever
    the body says; the row stored under the id is then that result.  This
    holds for the [deserialize] of any model, one that takes an id from the
    body included: the id of the path wins by the assignment the handler
    makes after deserializing. *)
Theorem update_products_path_id_wins
        (model_deserialize : Product.t -> value -> Product.t * option exn)
        (i : Z) (req : request) (w : world)
        (data : value) (found updated : Product.t) :
  headers_get "Content-Type" (headers req) = Some "application/json" ->
  json req = Some data ->
  Product.find i (rows w) = Some found ->
  model_deserialize found data = (updated, None) ->
  let result := Product.set_id (Some i) updated in
  update_products_with model_deserialize i req w =
    (Return (jsonify (Product.serialize result) HTTP_200_OK),
     mk_world
       (map (fun r => if Product.has_id i r then result else r) (rows w))
       (next_id w)
       (calls w ++ [Call_find i; Call_deserialize data; Call_update (Some i)]))
  /\ dict_get "id" (Product.serialize result) = Some (VInt i)
  /\ Product.find i (rows (snd (update_products_with model_deserialize i req w)))
     = Some result.
Proof.
  intros Hct Hjson Hfind Hdes result.
  assert (Hrun : update_products_with model_deserialize i req w =
    (Return (jsonify (Product.serialize result) HTTP_200_OK),
     mk_world
       (map (fun r => if Product.has_id i r then result else r) (rows w))
       (next_id w)
       (calls w ++ [Call_find i; Call_deserialize data; Call_update (Some i)])));
    [| split; [exact Hrun | split; [reflexivity |]];
       rewrite Hrun; cbn [snd rows];
       now apply (find_after_update i (rows w) found result Hfind)].
  unfold update_products_with, bind.
  rewrite (check_content_type_accepts req w Hct).
  unfold Product_find. rewrite Hfind.
  unfold get_json. rewrite Hjson. unfold ret.
  unfold Product_deserialize_with. rewrite Hdes.
  unfold Product_update. fold result.
  unfold Product.update. cbn [Product.id Product.set_id result rows log].
  rewrite (find_Some_exists i (rows w) found Hfind).
  unfold set_rows, log. cbn [rows next_id calls].
  rewrite <- !app_assoc. reflexivity.
Qed.

Lemma update_products_path_id_wins_witness :
  (* a model whose deserialize takes the id 77 of the body *)
  (exists updated,
      Sample.deserialize_with_id Sample.bread Sample.good_data
        = (updated, None) /\
      Product.id updated = Some 77 /\
      exists w',
        update_products_with Sample.deserialize_with_id 2
          (Sample.send (Some "application/json") Sample.good_data) Sample.store
        = (Return (jsonify (Product.serialize (Product.set_id (Some 2) updated))
                           HTTP_200_OK), w') /\
        dict_get "id" (Product.serialize (Product.set_id (Some 2) updated))
          = Some (VInt 2) /\
        Product.find 2 (rows w') = Some (Product.set_id (Some 2) updated) /\
        Product.find 77 (rows w') = None) /\
  (* the model of the spec *)
  (exists result w',
      update_products Sample.names 2
        (Sample.send (Some "application/json") Sample.good_data) Sample.store
      = (Return (jsonify (Product.serialize result) HTTP_200_OK), w') /\
      dict_get "id" (Product.serialize result) = Some (VInt 2) /\
      dict_get "id" Sample.good_data = Some (VInt 77) /\
      Product.find 2 (rows w') = Some result).
Proof.
  split.
  - destruct (update_products_path_id_wins Sample.deserialize_with_id 2
                (Sample.send (Some "application/json") Sample.good_data)
                Sample.store Sample.good_data Sample.bread
                (Product.mk (Some 77) (VStr "TestProduct")
                   (VStr "TestDescription")
                   (Some (Decimal.mk 9999 2)) (Some true) (Some "FOOD"))
                eq_refl eq_refl eq_refl eq_refl) as (Hrun & Hid & Hfind).
    eexists. split; [reflexivity |]. split; [reflexivity |].
    eexists. split; [exact Hrun |]. split; [exact Hid |].
    split; reflexivity.
  - destruct (update_products_path_id_wins (deserialize Sample.names) 2
                (Sample.send (Some "application/json") Sample.good_data)
                Sample.store Sample.good_data Sample.bread
                (Product.mk (Some 2) (VStr "TestProduct")
                   (VStr "TestDescription")
                   (Some (Decimal.mk 9999 2)) (Some true) (Some "FOOD"))
                eq_refl eq_refl eq_refl eq_refl) as (Hrun & Hid & _).
    eexists. eexists. split; [exact Hrun |].
    split; [exact Hid |]. split; reflexivity.
Defined.

(** C7.  A POST /products or PUT /products/{id} request whose Content-Type
    header is absent, or is not exactly "application/json", is answered 415,
    and the world is left as it was: nothing is deserialized, nothing is
    read from or written to the store. *)
Theorem unsupported_media_type
        (names : list string) (i : Z) (req : request) (w : world) :
  headers_get "Content-Type" (headers req) = None \/
  (exists v, headers_get "Content-Type" (headers req) = Some v /\
             v <> "application/json") ->
  let refused :=
    (Abort HTTP_415_UNSUPPORTED_MEDIA_TYPE
           "Content-Type must be application/json", w) in
  create_products names req w = refused /\
  update_products names i req w = refused /\
  http_status (fst (create_products names req w)) = 415 /\
  http_status (fst (update_products names i req w)) = 415.
Proof.
  intros Hct refused.
  assert (Hne : headers_get "Content-Type" (headers req)
                <> Some "application/json").
  { destruct Hct as [-> | (v & -> & Hv)]; [discriminate |].
    intros [= ->]. now elim Hv. }
  assert (Hpost : create_products names req w = refused).
  { unfold create_products, bind.
    now rewrite (check_content_type_refuses req w Hne). }
  assert (Hput : update_products names i req w = refused).
  { unfold update_products, update_products_with, bind.
    now rewrite (check_content_type_refuses req w Hne). }
  rewrite Hpost, Hput. repeat split.
Qed.

Lemma unsupported_media_type_witness :
  (create_products Sample.names (Sample.send None Sample.good_data) Sample.store
     = (Abort 415 "Content-Type must be application/json", Sample.store)) /\
  (update_products Sample.names 2
     (Sample.send (Some "plain/text") Sample.good_data) Sample.store
     = (Abort 415 "Content-Type must be application/json", Sample.store)).
Proof.
  split.
  - apply (unsupported_media_type Sample.names 2
             (Sample.send None Sample.good_data) Sample.store).
    left. reflexivity.
  - apply (unsupported_media_type Sample.names 2
             (Sample.send (Some "plain/text") Sample.good_data) Sample.store).
    right. exists "plain/text". split; [reflexivity | discriminate].
Defined.

(** C8.  When no Product has the id, [find] returns an absent result without
    raising, and GET /products/{id} is answered 404 with a message that names
    the id and contains the text "was not found". *)
Theorem get_product_not_found (i : Z) (w : world) :
  (forall p, In p (rows w) -> Product.id p <> Some i) ->
  Product_find i w = (Return None, log (Call_find i) w) /\
  get_product i w =
    (Abort HTTP_404_NOT_FOUND (not_found_message i), log (Call_find i) w) /\
  http_status (fst (get_product i w)) = 404 /\
  Text.contains (Text.str_Z i) (not_found_message i) = true /\
  Text.contains "was not found" (not_found_message i) = true.
Proof.
  intros Habsent. apply find_absent in Habsent.
  assert (Hget : get_product i w =
                 (Abort HTTP_404_NOT_FOUND (not_found_message i),
                  log (Call_find i) w)).
  { unfold get_product, bind, Product_find. now rewrite Habsent. }
  repeat split.
  - unfold Product_find. now rewrite Habsent.
  - exact Hget.
  - now rewrite Hget.
  - unfold not_found_message. apply contains_append.
  - unfold not_found_message.
    change "' was not found." with ("' " ++ "was not found" ++ ".").
    rewrite <- !append_assoc. rewrite !append_assoc.
    rewrite <- (append_assoc "Product with id '").
    rewrite <- (append_assoc ("Product with id '" ++ Text.str_Z i)).
    apply contains_append.
Qed.

Lemma get_product_not_found_witness :
  get_product 0 Sample.store =
    (Abort 404 "Product with id '0' was not found.",
     log (Call_find 0) Sample.store) /\
  Text.contains "was not found" (not_found_message 0) = true.
Proof.
  destruct (get_product_not_found 0 Sample.store) as (_ & Hget & _ & _ & Hmsg).
  - intros p [<- | [<- | []]]; discriminate.
  - split; [exact Hget | exact Hmsg].
Defined.

(** C9 as first stated fails: a request with [category=bogus] selects the
    category filter, yet no query is made and the answer is 400, not a
    listing. *)
Lemma list_products_not_always_a_listing :
  ~ always_lists Sample.names Text.upper Text.lower
      (Sample.get [("category", "bogus")]) Sample.store.
Proof.
  intros (q & products & H). vm_compute in H. discriminate H.
Qed.

(** An empty [name] parameter is passed over: the next parameter decides. *)
Example list_products_empty_name_skipped :
  list_products Sample.names Text.upper Text.lower
    (Sample.get [("name", ""); ("available", "Yes")]) Sample.store
  = (Return (listing [Sample.fedora]),
     log (Call_find_by_availability true) Sample.store).
Proof. reflexivity. Qed.

(** C9, amended.  GET /products applies the precedence name > category >
    available > none, a parameter counting when it is present and not empty:
    the answer is the 200 listing of the one query made for the selected
    filter, except that a category value naming no declared member, once
    upper-cased, is answered 400 with no query made. *)
Theorem list_products_precedence
        (names : list string) (upper lower : string -> string)
        (req : request) (w : world) :
  list_products names upper lower req w = list_products_spec names upper lower req w.
Proof.
  unfold list_products, list_products_spec, select, bind,
    except_AttributeError.
  destruct (truthy_arg (args_get "name" req)) as [n |]; [reflexivity |].
  destruct (truthy_arg (args_get "category" req)) as [c |] eqn:Ec.
  - unfold Category_getattr.
    destruct (getattr_Category names (upper c)) as [cat |];
      [reflexivity |].
    cbn. unfold truthy_arg in Ec.
    destruct (args_get "category" req) as [c0 |]; [| discriminate].
    destruct (Text.truthy c0); [| discriminate].
    now injection Ec as ->.
  - destruct (truthy_arg (args_get "available" req)) as [v |]; reflexivity.
Qed.

(** C10.  With a non-empty [available] parameter [v] and no [name] or
    [category] parameter, GET /products filters by availability with the flag
    that is true exactly when [v] in lower case is "true", "yes" or "1", and
    answers 200: any other value is taken as false, where [deserialize]
    refuses the same text for [available]. *)
Theorem list_products_available_coercion
        (names : list string) (upper lower : string -> string)
        (req : request) (w : world) (v : string) :
  args_get "available" req = Some v ->
  v <> "" ->
  args_get "name" req = None ->
  args_get "category" req = None ->
  let flag := in_list (lower v) ["true"; "yes"; "1"] in
  list_products names upper lower req w =
    (Return (listing (Product.find_by_availability flag (rows w))),
     log (Call_find_by_availability flag) w) /\
  http_status (fst (list_products names upper lower req w)) = 200 /\
  (flag = true <-> In (lower v) ["true"; "yes"; "1"]) /\
  (forall self data,
      dict_get "available" data = Some (VStr v) ->
      exists msg,
        deserialize names self data = (self, Some (DataValidationError msg))).
Proof.
  intros Hav Hne Hname Hcat flag.
  assert (Hrun : list_products names upper lower req w =
                 (Return (listing (Product.find_by_availability flag (rows w))),
                  log (Call_find_by_availability flag) w)).
  { unfold list_products, bind, except_AttributeError.
    rewrite Hname, Hcat, Hav, (truthy_arg_nonempty v Hne). reflexivity. }
  split; [exact Hrun |]. split; [now rewrite Hrun |].
  split; [apply in_list_In |].
  intros self data Hget.
  destruct (validate_not_bool names data (VStr v) Hget eq_refl) as [msg Hmsg].
  exists msg. now apply deserialize_refused.
Qed.

Lemma list_products_available_coercion_witness :
  list_products Sample.names Text.upper Text.lower
      (Sample.get [("available", "bogus")]) Sample.store
    = (Return (listing [Sample.bread]),
       log (Call_find_by_availability false) Sample.store).
Proof.
  apply (list_products_available_coercion Sample.names Text.upper Text.lower
           (Sample.get [("available", "bogus")]) Sample.store "bogus");
    [reflexivity | discriminate | reflexivity | reflexivity].
Defined.

(* ================================================================== *)
(** * Further facts about the model                                   *)
(* ================================================================== *)

(** A payload that passes validation fixes every field but [id]. *)
Lemma validate_shape (names : list string) (data : value)
      (assign : Product.t -> Product.t) :
  validate names data = inr assign ->
  exists n d pr b cat,
    assign = (fun self =>
                Product.mk (Product.id self) n d (Some pr) (Some b) (Some cat)).
Proof.
  unfold validate, need.
  destruct (dict_get "name" data) as [n |]; [| discriminate].
  destruct (dict_get "description" data) as [d |]; [| discriminate].
  destruct (dict_get "price" data) as [p |]; [| discriminate].
  destruct (dict_get "available" data) as [a |]; [| discriminate].
  destruct (dict_get "category" data) as [c |]; [| discriminate].
  destruct (as_bool a) as [b |]; [| discriminate].
  destruct (as_category names c) as [cat |]; [| discriminate].
  destruct (as_decimal p) as [pr |]; [| discriminate].
  intros [= <-]. now exists n, d, pr, b, cat.
Qed.

(** [deserialize] raises nothing but validation errors, and then keeps the
    target. *)
Lemma deserialize_raises (names : list string) (self self' : Product.t)
      (data : value) (e : exn) :
  deserialize names self data = (self', Some e) ->
  self' = self /\ exists msg, e = DataValidationError msg.
Proof.
  unfold deserialize. destruct (validate names data) as [msg | assign].
  - intros [= <- <-]. eauto.
  - discriminate.
Qed.

(** The outcome of [deserialize] depends on the target through its [id]
    only. *)
Lemma deserialize_other_target (names : list string) (self other p : Product.t)
      (data : value) :
  deserialize names self data = (p, None) ->
  deserialize names other data = (Product.set_id (Product.id other) p, None).
Proof.
  unfold deserialize. destruct (validate names data) as [msg | assign] eqn:E;
    [discriminate |].
  destruct (validate_shape names data assign E)
    as (n & d & pr & b & cat & ->).
  intros [= <-]. reflexivity.
Qed.

Lemma deserialize_keeps_id (names : list string) (self p : Product.t)
      (data : value) (r : option exn) :
  deserialize names self data = (p, r) -> Product.id p = Product.id self.
Proof.
  unfold deserialize. destruct (validate names data) as [msg | assign] eqn:E.
  - now intros [= <- _].
  - destruct (validate_shape names data assign E)
      as (n & d & pr & b & cat & ->).
    now intros [= <- _].
Qed.

(** On a valid Product, [deserialize] undoes [serialize] field by field. *)
Lemma deserialize_serialize_exact (names : list string) (x target : Product.t) :
  valid names x ->
  deserialize names target (Product.serialize x)
  = (Product.set_id (Product.id target) x, None).
Proof.
  intros ((n & Hname & _) & (d & Hprice) & (b & Havail) & (c & Hcat & Hin)).
  destruct x as [xi xn xd xp xa xc]. cbn [Product.name Product.price
    Product.available Product.category Product.description] in *. subst.
  unfold deserialize, validate, Product.serialize.
  cbn [dict_get assoc String.eqb Ascii.eqb Bool.eqb from_option need
       Product.id Product.name Product.description Product.price
       Product.available Product.category as_bool as_category as_decimal].
  rewrite (getattr_Category_declared names c Hin), of_string_to_string.
  reflexivity.
Qed.

Lemma has_id_set_id (i : Z) (p : Product.t) :
  Product.has_id i (Product.set_id (Some i) p) = true.
Proof. unfold Product.has_id. simpl. apply Z.eqb_refl. Qed.

Lemma has_id_other (i j : Z) (p : Product.t) :
  j <> i -> Product.has_id i p = true -> Product.has_id j p = false.
Proof.
  unfold Product.has_id. destruct (Product.id p) as [k |]; [| discriminate].
  intros Hne Hk. apply Z.eqb_eq in Hk. subst. now apply Z.eqb_neq.
Qed.

Lemma has_id_In (i : Z) (rows : list Product.t) :
  (exists p, In p rows /\ Product.id p = Some i) <->
  exists p, Product.find i rows = Some p.
Proof.
  split.
  - intros (p & Hin & Hid).
    destruct (Product.find i rows) as [q |] eqn:E; [eauto |].
    unfold Product.find in E.
    pose proof (find_none _ _ E p Hin) as Hno.
    unfold Product.has_id in Hno. rewrite Hid, Z.eqb_refl in Hno. discriminate.
  - intros (p & Hfind). apply find_has_id in Hfind as [Hid Hin]. eauto.
Qed.

(** Rows put at the end do not hide the rows already there. *)
Lemma find_app_kept (i : Z) (rows more : list Product.t) (p : Product.t) :
  Product.find i rows = Some p -> Product.find i (rows ++ more)%list = Some p.
Proof.
  unfold Product.find. induction rows as [| r rows IH]; simpl; [discriminate |].
  destruct (Product.has_id i r); [trivial | exact IH].
Qed.

(** A new row under a key no row has is the one found under that key. *)
Lemma find_app_fresh (i : Z) (rows : list Product.t) (p : Product.t) :
  (forall r, In r rows -> Product.id r <> Some i) ->
  Product.id p = Some i ->
  Product.find i (rows ++ [p])%list = Some p.
Proof.
  intros Hfresh Hid. unfold Product.find.
  induction rows as [| r rows IH]; simpl.
  - unfold Product.has_id. now rewrite Hid, Z.eqb_refl.
  - destruct (Product.has_id i r) eqn:E.
    + exfalso. apply (Hfresh r); [now left |].
      unfold Product.has_id in E.
      destruct (Product.id r) as [k |]; [| discriminate].
      apply Z.eqb_eq in E. now subst.
    + apply IH. intros r' Hr'. apply Hfresh. now right.
Qed.

(** Replacing the rows of one id leaves the rows of every other id. *)
Lemma find_replace_other (i j : Z) (rows : list Product.t) (result : Product.t) :
  j <> i ->
  Product.id result = Some i ->
  Product.find j
    (map (fun r => if Product.has_id i r then result else r) rows)
  = Product.find j rows.
Proof.
  intros Hne Hid. unfold Product.find.
  assert (Hres : Product.has_id j result = false).
  { unfold Product.has_id. rewrite Hid. now apply Z.eqb_neq. }
  induction rows as [| r rows IH]; simpl; [reflexivity |].
  destruct (Product.has_id i r) eqn:E.
  - rewrite Hres, (has_id_other i j r Hne E). exact IH.
  - destruct (Product.has_id j r); [reflexivity | exact IH].
Qed.

Lemma replace_twice (i : Z) (rows : list Product.t) (result : Product.t) :
  Product.has_id i result = true ->
  let repl := fun r => if Product.has_id i r then result else r in
  map repl (map repl rows) = map repl rows.
Proof.
  intros Hres repl. rewrite map_map. apply map_ext. intros r. unfold repl.
  destruct (Product.has_id i r) eqn:E; [now rewrite Hres | now rewrite E].
Qed.

(** Dropping the rows of one id leaves the rows of every other id. *)
Lemma find_drop_other (i j : Z) (rows : list Product.t) :
  j <> i ->
  Product.find j (filter (fun p => negb (Product.has_id i p)) rows)
  = Product.find j rows.
Proof.
  intros Hne. unfold Product.find.
  induction rows as [| r rows IH]; simpl; [reflexivity |].
  destruct (Product.has_id i r) eqn:E; simpl.
  - rewrite (has_id_other i j r Hne E). exact IH.
  - destruct (Product.has_id j r); [reflexivity | exact IH].
Qed.

Lemma drop_absent (i : Z) (rows : list Product.t) :
  Product.find i rows = None ->
  filter (fun p => negb (Product.has_id i p)) rows = rows.
Proof.
  unfold Product.find. induction rows as [| r rows IH]; simpl; [reflexivity |].
  destruct (Product.has_id i r); [discriminate |].
  intros H. simpl. now rewrite IH.
Qed.

(** ** Runs of the handlers *)

Lemma create_products_run (names : list string) (req : request) (w : world)
      (data : value) (p : Product.t) :
  headers_get "Content-Type" (headers req) = Some "application/json" ->
  json req = Some data ->
  deserialize names Product.new data = (p, None) ->
  Product.complete p = true ->
  let created := Product.set_id (Some (next_id w)) p in
  create_products names req w =
    (Return (mk_response (Json (Product.serialize created)) HTTP_201_CREATED
               [("Location",
                 host_url req ++ "/products/" ++ Text.str_Z (next_id w))]),
     mk_world (rows w ++ [created]) (next_id w + 1)
              (calls w ++ [Call_deserialize data; Call_create])).
Proof.
  intros Hct Hjson Hdes Hok created.
  unfold create_products, bind.
  rewrite (check_content_type_accepts req w Hct).
  unfold get_json. rewrite Hjson. unfold ret.
  unfold Product_deserialize, Product_deserialize_with. rewrite Hdes.
  unfold Product_create, Product.create. rewrite Hok.
  cbn [rows next_id calls log]. fold created.
  unfold url_for_get_product. cbn [Product.id Product.set_id created].
  rewrite <- app_assoc. reflexivity.
Qed.

Lemma update_products_run (names : list string) (i : Z) (req : request)
      (w : world) (data : value) (found updated : Product.t) :
  headers_get "Content-Type" (headers req) = Some "application/json" ->
  json req = Some data ->
  Product.find i (rows w) = Some found ->
  deserialize names found data = (updated, None) ->
  let result := Product.set_id (Some i) updated in
  update_products names i req w =
    (Return (jsonify (Product.serialize result) HTTP_200_OK),
     mk_world
       (map (fun r => if Product.has_id i r then result else r) (rows w))
       (next_id w)
       (calls w ++ [Call_find i; Call_deserialize data; Call_update (Some i)])).
Proof.
  intros Hct Hjson Hfind Hdes result.
  unfold update_products, update_products_with, bind.
  rewrite (check_content_type_accepts req w Hct).
  unfold Product_find. rewrite Hfind.
  unfold get_json. rewrite Hjson. unfold ret.
  unfold Product_deserialize, Product_deserialize_with. rewrite Hdes.
  unfold Product_update. fold result.
  unfold Product.update. cbn [Product.id Product.set_id result rows log].
  rewrite (find_Some_exists i (rows w) found Hfind).
  unfold set_rows, log. cbn [rows next_id calls].
  rewrite <- !app_assoc. reflexivity.
Qed.

(** The table after a POST is the table before, with at most one row more. *)
Lemma create_products_rows (names : list string) (req : request) (w : world) :
  rows (snd (create_products names req w)) = rows w \/
  exists p, rows (snd (create_products names req w)) = (rows w ++ [p])%list.
Proof.
  unfold create_products, bind, check_content_type.
  destruct (headers_get "Content-Type" (headers req)) as [v |];
    [| now left].
  destruct (negb (v =? "application/json")%string); [now left |].
  unfold ret, get_json. destruct (json req) as [data |]; [| now left].
  unfold ret, Product_deserialize, Product_deserialize_with.
  destruct (deserialize names Product.new data) as [p [e |]]; [now left |].
  unfold Product_create.
  destruct (Product.create p _ _) as [[p' rows'] |] eqn:E; [| now left].
  right. unfold Product.create in E.
  destruct (Product.complete p); [| discriminate].
  injection E as <- <-. cbn. eauto.
Qed.

(* ================================================================== *)
(** * Further properties of the routes                                *)
(* ================================================================== *)

(** X1.  [check_content_type] returns normally exactly when the request has a
    Content-Type header whose value is the expected one; in every other case
    it aborts with 415, and it never changes the world. *)
Theorem check_content_type_accepts_exactly
        (content_type : string) (req : request) (w : world) :
  snd (check_content_type content_type req w) = w /\
  (fst (check_content_type content_type req w) = Return tt <->
   headers_get "Content-Type" (headers req) = Some content_type) /\
  (fst (check_content_type content_type req w) = Return tt \/
   fst (check_content_type content_type req w) =
     Abort HTTP_415_UNSUPPORTED_MEDIA_TYPE
           ("Content-Type must be " ++ content_type)).
Proof.
  unfold check_content_type.
  destruct (headers_get "Content-Type" (headers req)) as [v |].
  - destruct (String.eqb_spec v content_type) as [-> | Hne]; cbn.
    + repeat split; auto.
    + repeat split; auto; [discriminate | intros [= ->]; now elim Hne].
  - cbn. repeat split; auto; discriminate.
Qed.

(** X2.  POST /products with the JSON content type and the serialization of a
    valid Product (description a text) as body answers 201 with the
    serialization of that Product under the key the store generates, whatever
    id the body carries, and a Location header made of the host, "/products/"
    and that key; the Product is appended to the table. *)
Theorem create_products_roundtrip
        (names : list string) (req : request) (w : world) (x : Product.t) :
  headers_get "Content-Type" (headers req) = Some "application/json" ->
  json req = Some (Product.serialize x) ->
  valid names x ->
  Product.is_text (Product.description x) = true ->
  let created := Product.set_id (Some (next_id w)) x in
  create_products names req w =
    (Return (mk_response (Json (Product.serialize created)) HTTP_201_CREATED
               [("Location",
                 host_url req ++ "/products/" ++ Text.str_Z (next_id w))]),
     mk_world (rows w ++ [created]) (next_id w + 1)
              (calls w ++ [Call_deserialize (Product.serialize x); Call_create])).
Proof.
  intros Hct Hjson Hvalid Htext created.
  pose proof (deserialize_serialize_exact names x Product.new Hvalid) as Hdes.
  assert (Hok : Product.complete (Product.set_id (Product.id Product.new) x)
                = true).
  { destruct Hvalid as ((n & Hn & Hne) & (d & Hd) & (b & Hb) & (c & Hc & _)).
    unfold Product.complete. cbn [Product.set_id Product.name
      Product.description Product.price Product.available Product.category].
    rewrite Hn, Hd, Hb, Hc, Htext.
    destruct n; [now elim Hne | reflexivity]. }
  exact (create_products_run names req w (Product.serialize x) _
           Hct Hjson Hdes Hok).
Qed.

Lemma create_products_roundtrip_witness :
  create_products Sample.names
    (Sample.send (Some "application/json") (Product.serialize Sample.fedora))
    Sample.store
  = (Return (mk_response
               (Json (Product.serialize (Product.set_id (Some 3) Sample.fedora)))
               201 [("Location", "http://localhost/products/3")]),
     mk_world [Sample.fedora; Sample.bread; Product.set_id (Some 3) Sample.fedora]
              4 [Call_deserialize (Product.serialize Sample.fedora); Call_create]).
Proof.
  apply (create_products_roundtrip Sample.names
           (Sample.send (Some "application/json")
                        (Product.serialize Sample.fedora))
           Sample.store Sample.fedora).
  - reflexivity.
  - reflexivity.
  - unfold valid. simpl. repeat split.
    + exists "Fedora". split; [reflexivity | discriminate].
    + eexists; reflexivity.
    + eexists; reflexivity.
    + exists "CLOTHS". split; [reflexivity | now left].
  - reflexivity.
Defined.

(** X3.  When a POST /products succeeds and the generated key is not yet in
    the table, a GET for that key on the resulting store answers 200 with the
    body the POST returned. *)
Theorem create_then_get
        (names : list string) (req : request) (w : world)
        (data : value) (p : Product.t) :
  headers_get "Content-Type" (headers req) = Some "application/json" ->
  json req = Some data ->
  deserialize names Product.new data = (p, None) ->
  Product.complete p = true ->
  (forall r, In r (rows w) -> Product.id r <> Some (next_id w)) ->
  exists posted,
    fst (create_products names req w) = Return posted /\
    status posted = 201 /\
    fst (get_product (next_id w) (snd (create_products names req w)))
      = Return (mk_response (body posted) HTTP_200_OK []).
Proof.
  intros Hct Hjson Hdes Hok Hfresh.
  rewrite (create_products_run names req w data p Hct Hjson Hdes Hok).
  eexists. split; [reflexivity |]. split; [reflexivity |].
  cbn [fst snd body]. unfold get_product, bind, Product_find.
  cbn [rows].
  rewrite (find_app_fresh (next_id w) (rows w)
             (Product.set_id (Some (next_id w)) p) Hfresh eq_refl).
  reflexivity.
Qed.

Lemma create_then_get_witness :
  exists posted,
    fst (create_products Sample.names
           (Sample.send (Some "application/json") Sample.good_data)
           Sample.store) = Return posted /\
    status posted = 201 /\
    fst (get_product 3
           (snd (create_products Sample.names
                   (Sample.send (Some "application/json") Sample.good_data)
                   Sample.store)))
      = Return (mk_response (body posted) HTTP_200_OK []).
Proof.
  apply (create_then_get Sample.names
           (Sample.send (Some "application/json") Sample.good_data)
           Sample.store Sample.good_data
           (Product.mk None (VStr "TestProduct") (VStr "TestDescription")
              (Some (Decimal.mk 9999 2)) (Some true) (Some "FOOD"))).
  - reflexivity.
  - reflexivity.
  - reflexivity.
  - reflexivity.
  - intros r [<- | [<- | []]]; discriminate.
Defined.

(** X4.  POST /products with the JSON content type and a body that lacks a
    required key raises the validation error of [deserialize], which is
    answered 400; [create()] is never called and the table is as before. *)
Theorem create_products_missing_key
        (names : list string) (req : request) (w : world)
        (data : value) (k : string) :
  headers_get "Content-Type" (headers req) = Some "application/json" ->
  json req = Some data ->
  In k required_keys ->
  dict_get k data = None ->
  (exists msg,
      create_products names req w =
        (Raise (DataValidationError msg), log (Call_deserialize data) w)) /\
  http_status (fst (create_products names req w)) = 400 /\
  rows (snd (create_products names req w)) = rows w.
Proof.
  intros Hct Hjson Hk Hnone.
  destruct (validate_missing_key names data k Hk Hnone) as [msg Hmsg].
  assert (Hrun : create_products names req w =
                 (Raise (DataValidationError msg), log (Call_deserialize data) w)).
  { unfold create_products, bind.
    rewrite (check_content_type_accepts req w Hct).
    unfold get_json. rewrite Hjson.
    unfold ret, Product_deserialize, Product_deserialize_with.
    now rewrite (deserialize_refused names Product.new data msg Hmsg). }
  split; [eauto |]. rewrite Hrun. split; reflexivity.
Qed.

Lemma create_products_missing_key_witness :
  http_status
    (fst (create_products Sample.names
            (Sample.send (Some "application/json") Sample.only_name)
            Sample.store)) = 400.
Proof.
  apply (create_products_missing_key Sample.names
           (Sample.send (Some "application/json") Sample.only_name)
           Sample.store Sample.only_name "price").
  - reflexivity.
  - reflexivity.
  - simpl. auto.
  - reflexivity.
Defined.

(** X5.  Whatever the request and whatever the outcome, a POST /products
    leaves every Product that could be found by its id findable, unchanged,
    under the same id. *)
Theorem create_products_keeps_rows
        (names : list string) (req : request) (w : world)
        (j : Z) (p : Product.t) :
  Product.find j (rows w) = Some p ->
  Product.find j (rows (snd (create_products names req w))) = Some p.
Proof.
  intros Hfind.
  destruct (create_products_rows names req w) as [-> | (q & ->)].
  - exact Hfind.
  - now apply find_app_kept.
Qed.

Lemma create_products_keeps_rows_witness :
  Product.find 2
    (rows (snd (create_products Sample.names
                  (Sample.send (Some "application/json") Sample.good_data)
                  Sample.store)))
  = Some Sample.bread.
Proof.
  apply (create_products_keeps_rows Sample.names
           (Sample.send (Some "application/json") Sample.good_data)
           Sample.store 2 Sample.bread).
  reflexivity.
Defined.

(** X6.  GET /products/{id} answers 200 exactly when some row of the table
    has that id, and 404 otherwise; it never changes the table or the key
    generator. *)
Theorem get_product_status (i : Z) (w : world) :
  (http_status (fst (get_product i w)) = 200 <->
   exists p, In p (rows w) /\ Product.id p = Some i) /\
  (http_status (fst (get_product i w)) = 200 \/
   http_status (fst (get_product i w)) = 404) /\
  rows (snd (get_product i w)) = rows w /\
  next_id (snd (get_product i w)) = next_id w.
Proof.
  rewrite has_id_In.
  unfold get_product, bind, Product_find.
  destruct (Product.find i (rows w)) as [p |]; cbn.
  - repeat split; eauto.
  - repeat split; auto; [discriminate | intros (p & Hp); discriminate].
Qed.

(** X7.  PUT /products/{id} with the JSON content type for an id no row has
    answers 404 with the not-found message, whatever the body is: the body is
    never read, nothing is deserialized or updated. *)
Theorem update_products_unknown_id
        (names : list string) (i : Z) (req : request) (w : world) :
  headers_get "Content-Type" (headers req) = Some "application/json" ->
  (forall p, In p (rows w) -> Product.id p <> Some i) ->
  update_products names i req w =
    (Abort HTTP_404_NOT_FOUND (not_found_message i), log (Call_find i) w).
Proof.
  intros Hct Habsent. apply find_absent in Habsent.
  unfold update_products, update_products_with, bind.
  rewrite (check_content_type_accepts req w Hct).
  unfold Product_find. now rewrite Habsent.
Qed.

Lemma update_products_unknown_id_witness :
  update_products Sample.names 9
    (mk_request [("content-type", "application/json")] [] None "") Sample.store
  = (Abort 404 "Product with id '9' was not found.",
     log (Call_find 9) Sample.store).
Proof.
  apply (update_products_unknown_id Sample.names 9
           (mk_request [("content-type", "application/json")] [] None "")
           Sample.store).
  - reflexivity.
  - intros p [<- | [<- | []]]; discriminate.
Defined.

(** X8.  When [deserialize] raises on the body of a PUT /products/{id}, the
    exception leaves the handler: the answer is 400, [update()] is never
    called and the table is as before. *)
Theorem update_products_invalid_body
        (names : list string) (i : Z) (req : request) (w : world)
        (data : value) (found after : Product.t) (e : exn) :
  headers_get "Content-Type" (headers req) = Some "application/json" ->
  json req = Some data ->
  Product.find i (rows w) = Some found ->
  deserialize names found data = (after, Some e) ->
  update_products names i req w =
    (Raise e, log (Call_deserialize data) (log (Call_find i) w)) /\
  http_status (fst (update_products names i req w)) = 400 /\
  rows (snd (update_products names i req w)) = rows w /\
  after = found.
Proof.
  intros Hct Hjson Hfind Hdes.
  assert (Hrun : update_products names i req w =
                 (Raise e, log (Call_deserialize data) (log (Call_find i) w))).
  { unfold update_products, update_products_with, bind.
    rewrite (check_content_type_accepts req w Hct).
    unfold Product_find. rewrite Hfind.
    unfold get_json. rewrite Hjson.
    unfold ret, Product_deserialize, Product_deserialize_with.
    now rewrite Hdes. }
  destruct (deserialize_raises names found after data e Hdes)
    as (Hsame & msg & ->).
  rewrite Hrun. repeat split; assumption.
Qed.

Lemma update_products_invalid_body_witness :
  http_status
    (fst (update_products Sample.names 2
            (Sample.send (Some "application/json") Sample.bad_data)
            Sample.store)) = 400 /\
  rows (snd (update_products Sample.names 2
               (Sample.send (Some "application/json") Sample.bad_data)
               Sample.store)) = rows Sample.store.
Proof.
  destruct (update_products_invalid_body Sample.names 2
              (Sample.send (Some "application/json") Sample.bad_data)
              Sample.store Sample.bad_data Sample.bread Sample.bread
              (DataValidationError "Invalid type for boolean [available]")
              eq_refl eq_refl eq_refl eq_refl) as (_ & Hstatus & Hrows & _).
  split; assumption.
Defined.

(** X9.  PUT /products/{id} is idempotent: sending the same valid request a
    second time gives the same response and leaves the table as the first
    request left it. *)
Theorem update_products_idempotent
        (names : list string) (i : Z) (req : request) (w : world)
        (data : value) (found updated : Product.t) :
  headers_get "Content-Type" (headers req) = Some "application/json" ->
  json req = Some data ->
  Product.find i (rows w) = Some found ->
  deserialize names found data = (updated, None) ->
  let once := update_products names i req w in
  let twice := update_products names i req (snd once) in
  fst twice = fst once /\ rows (snd twice) = rows (snd once).
Proof.
  intros Hct Hjson Hfind Hdes once twice.
  set (result := Product.set_id (Some i) updated).
  pose proof (update_products_run names i req w data found updated
                Hct Hjson Hfind Hdes) as Hrun1.
  cbv zeta in Hrun1. fold result in Hrun1.
  subst once twice. rewrite Hrun1. cbn [fst snd].
  set (w1 := mk_world _ _ _).
  assert (Hfind1 : Product.find i (rows w1) = Some result).
  { apply (find_after_update i (rows w) found result Hfind). reflexivity. }
  pose proof (deserialize_other_target names found result updated data Hdes)
    as Hdes1.
  pose proof (update_products_run names i req w1 data result _
                Hct Hjson Hfind1 Hdes1) as Hrun2.
  cbv zeta in Hrun2.
  change (Product.set_id (Some i)
            (Product.set_id (Product.id result) updated)) with result in Hrun2.
  rewrite Hrun2. cbn [fst snd rows]. split; [reflexivity |].
  subst w1. cbn [rows].
  apply (replace_twice i (rows w) result). apply has_id_set_id.
Qed.

Lemma update_products_idempotent_witness :
  let req := Sample.send (Some "application/json") Sample.good_data in
  let once := update_products Sample.names 2 req Sample.store in
  let twice := update_products Sample.names 2 req (snd once) in
  fst twice = fst once /\ rows (snd twice) = rows (snd once).
Proof.
  apply (update_products_idempotent Sample.names 2
           (Sample.send (Some "application/json") Sample.good_data)
           Sample.store Sample.good_data Sample.bread
           (Product.mk (Some 2) (VStr "TestProduct") (VStr "TestDescription")
              (Some (Decimal.mk 9999 2)) (Some true) (Some "FOOD")));
    reflexivity.
Defined.

(** X10.  A successful PUT /products/{id} changes no other Product: what is
    found under any other id is what was found before, and the table keeps
    its length. *)
Theorem update_products_other_rows
        (names : list string) (i j : Z) (req : request) (w : world)
        (data : value) (found updated : Product.t) :
  headers_get "Content-Type" (headers req) = Some "application/json" ->
  json req = Some data ->
  Product.find i (rows w) = Some found ->
  deserialize names found data = (updated, None) ->
  j <> i ->
  Product.find j (rows (snd (update_products names i req w)))
    = Product.find j (rows w) /\
  List.length (rows (snd (update_products names i req w)))
    = List.length (rows w).
Proof.
  intros Hct Hjson Hfind Hdes Hne.
  rewrite (update_products_run names i req w data found updated
             Hct Hjson Hfind Hdes).
  cbn [snd rows]. split.
  - now apply find_replace_other.
  - apply length_map.
Qed.

Lemma update_products_other_rows_witness :
  Product.find 1
    (rows (snd (update_products Sample.names 2
                  (Sample.send (Some "application/json") Sample.good_data)
                  Sample.store)))
  = Some Sample.fedora.
Proof.
  apply (update_products_other_rows Sample.names 2 1
           (Sample.send (Some "application/json") Sample.good_data)
           Sample.store Sample.good_data Sample.bread
           (Product.mk (Some 2) (VStr "TestProduct") (VStr "TestDescription")
              (Some (Decimal.mk 9999 2)) (Some true) (Some "FOOD")));
    try reflexivity.
  discriminate.
Defined.

(** X11.  After a PUT /products/{id} has succeeded, a GET for the same id
    answers 200 with the body the PUT returned. *)
Theorem update_then_get
        (names : list string) (i : Z) (req : request) (w : world)
        (data : value) (found updated : Product.t) :
  headers_get "Content-Type" (headers req) = Some "application/json" ->
  json req = Some data ->
  Product.find i (rows w) = Some found ->
  deserialize names found data = (updated, None) ->
  exists answer,
    fst (update_products names i req w) = Return answer /\
    fst (get_product i (snd (update_products names i req w))) = Return answer.
Proof.
  intros Hct Hjson Hfind Hdes.
  rewrite (update_products_run names i req w data found updated
             Hct Hjson Hfind Hdes).
  eexists. split; [reflexivity |].
  cbn [fst snd]. unfold get_product, bind, Product_find. cbn [rows].
  rewrite (find_after_update i (rows w) found
             (Product.set_id (Some i) updated) Hfind eq_refl).
  reflexivity.
Qed.

Lemma update_then_get_witness :
  exists answer,
    fst (update_products Sample.names 2
           (Sample.send (Some "application/json") Sample.good_data)
           Sample.store) = Return answer /\
    fst (get_product 2
           (snd (update_products Sample.names 2
                   (Sample.send (Some "application/json") Sample.good_data)
                   Sample.store))) = Return answer.
Proof.
  apply (update_then_get Sample.names 2
           (Sample.send (Some "application/json") Sample.good_data)
           Sample.store Sample.good_data Sample.bread
           (Product.mk (Some 2) (VStr "TestProduct") (VStr "TestDescription")
              (Some (Decimal.mk 9999 2)) (Some true) (Some "FOOD")));
    reflexivity.
Defined.

(** X12.  After DELETE /products/{id}, a GET for the same id answers 404 with
    the not-found message, whether or not the id was there before. *)
Theorem delete_then_get_not_found (i : Z) (w : world) :
  fst (get_product i (snd (delete_products i w)))
  = Abort HTTP_404_NOT_FOUND (not_found_message i).
Proof.
  destruct (delete_products_run i w) as (w1 & Hrun & Hgone).
  rewrite Hrun. cbn [snd].
  apply filter_none_find in Hgone.
  unfold get_product, bind, Product_find. now rewrite Hgone.
Qed.

(** X13.  DELETE /products/{id} removes the rows of that id and nothing else:
    the other rows stay, in their order, the key generator is untouched, and
    what is found under any other id is what was found before. *)
Theorem delete_products_removes_only (i j : Z) (w : world) :
  j <> i ->
  rows (snd (delete_products i w))
    = filter (fun p => negb (Product.has_id i p)) (rows w) /\
  next_id (snd (delete_products i w)) = next_id w /\
  Product.find j (rows (snd (delete_products i w))) = Product.find j (rows w).
Proof.
  intros Hne.
  assert (Hrows : rows (snd (delete_products i w))
                  = filter (fun p => negb (Product.has_id i p)) (rows w)).
  { unfold delete_products, bind, Product_find, Product_delete, ret.
    destruct (Product.find i (rows w)) as [p |] eqn:E; cbn.
    - unfold Product.delete. now apply find_has_id in E as [-> _].
    - symmetry. now apply drop_absent. }
  split; [exact Hrows |]. split.
  - unfold delete_products, bind, Product_find, Product_delete, ret.
    destruct (Product.find i (rows w)); reflexivity.
  - rewrite Hrows. now apply find_drop_other.
Qed.

Lemma delete_products_removes_only_witness :
  rows (snd (delete_products 1 Sample.store)) = [Sample.bread] /\
  Product.find 2 (rows (snd (delete_products 1 Sample.store)))
    = Some Sample.bread.
Proof.
  destruct (delete_products_removes_only 1 2 Sample.store) as (Hrows & _ & Hfind).
  - discriminate.
  - split; [exact Hrows | exact Hfind].
Defined.


(** X16.  The category filter of GET /products ignores the case of the
    parameter: two requests without a name whose category values differ by
    case only, and name a declared Category, get the same answer. *)
Theorem list_products_category_ignores_case
        (names : list string) (upper lower : string -> string)
        (req1 req2 : request) (w : world) (c1 c2 : string) :
  truthy_arg (args_get "name" req1) = None ->
  truthy_arg (args_get "name" req2) = None ->
  args_get "category" req1 = Some c1 ->
  args_get "category" req2 = Some c2 ->
  c1 <> "" ->
  c2 <> "" ->
  match_nocase upper c1 c2 = true ->
  In (upper c1) names ->
  list_products names upper lower req1 w
  = list_products names upper lower req2 w /\
  http_status (fst (list_products names upper lower req1 w)) = 200.
Proof.
  intros Hn1 Hn2 Hc1 Hc2 Hne1 Hne2 Hsame Hin.
  apply String.eqb_eq in Hsame.
  unfold list_products, bind, except_AttributeError.
  rewrite Hn1, Hn2, Hc1, Hc2.
  rewrite (truthy_arg_nonempty c1 Hne1), (truthy_arg_nonempty c2 Hne2).
  unfold Category_getattr. rewrite <- Hsame.
  rewrite (getattr_Category_declared names _ Hin). cbn. auto.
Qed.

Lemma list_products_category_ignores_case_witness :
  list_products Sample.names Text.upper Text.lower
      (Sample.get [("category", "food")]) Sample.store
  = list_products Sample.names Text.upper Text.lower
      (Sample.get [("category", "FooD"); ("available", "true")]) Sample.store.
Proof.
  apply (list_products_category_ignores_case Sample.names
           Text.upper Text.lower
           (Sample.get [("category", "food")])
           (Sample.get [("category", "FooD"); ("available", "true")])
           Sample.store "food" "FooD");
    try reflexivity; try discriminate.
  simpl. auto.
Defined.

(** X17.  A name parameter that is given decides the answer of GET /products
    alone: two requests with the same non-empty name get the same 200
    listing whatever their category and available parameters are, an
    undeclared category included. *)
Theorem list_products_name_shadows
        (names : list string) (upper lower : string -> string)
        (req1 req2 : request) (w : world) (n : string) :
  args_get "name" req1 = Some n ->
  args_get "name" req2 = Some n ->
  n <> "" ->
  list_products names upper lower req1 w
  = list_products names upper lower req2 w /\
  http_status (fst (list_products names upper lower req1 w)) = 200.
Proof.
  intros H1 H2 Hne.
  unfold list_products, bind, except_AttributeError.
  rewrite H1, H2, (truthy_arg_nonempty n Hne). cbn. auto.
Qed.

Lemma list_products_name_shadows_witness :
  list_products Sample.names Text.upper Text.lower
    (Sample.get [("name", "Bread"); ("category", "bogus")]) Sample.store
  = list_products Sample.names Text.upper Text.lower
      (Sample.get [("name", "Bread")]) Sample.store /\
  http_status
    (fst (list_products Sample.names Text.upper Text.lower
            (Sample.get [("name", "Bread"); ("category", "bogus")])
            Sample.store)) = 200.
Proof.
  apply (list_products_name_shadows Sample.names Text.upper Text.lower
           (Sample.get [("name", "Bread"); ("category", "bogus")])
           (Sample.get [("name", "Bread")]) Sample.store "Bread");
    [reflexivity | reflexivity | discriminate].
Defined.

(** X18.  After a POST /products has succeeded, a GET /products without a
    given parameter answers 200 with a listing of exactly the Products that
    were in the table and the new one, each as often as it is there; nothing
    is said of their order. *)
Theorem create_then_list
        (names : list string) (upper lower : string -> string)
        (req query : request) (w : world)
        (data : value) (p : Product.t) :
  headers_get "Content-Type" (headers req) = Some "application/json" ->
  json req = Some data ->
  deserialize names Product.new data = (p, None) ->
  Product.complete p = true ->
  truthy_arg (args_get "name" query) = None ->
  truthy_arg (args_get "category" query) = None ->
  truthy_arg (args_get "available" query) = None ->
  exists products,
    fst (list_products names upper lower query
           (snd (create_products names req w)))
      = Return (listing products) /\
    Permutation products
      (Product.set_id (Some (next_id w)) p :: rows w).
Proof.
  intros Hct Hjson Hdes Hok Hn Hc Ha.
  rewrite (create_products_run names req w data p Hct Hjson Hdes Hok).
  unfold list_products, bind, except_AttributeError.
  rewrite Hn, Hc, Ha. cbn [fst snd Product_all rows log].
  eexists. split; [reflexivity |].
  unfold Product.all. apply Permutation_sym, Permutation_cons_append.
Qed.

Lemma create_then_list_witness :
  exists products,
    fst (list_products Sample.names Text.upper Text.lower
           (Sample.get [("name", "")])
           (snd (create_products Sample.names
                   (Sample.send (Some "application/json") Sample.good_data)
                   Sample.store)))
      = Return (listing products) /\
    Permutation products
      (Product.mk (Some 3) (VStr "TestProduct") (VStr "TestDescription")
         (Some (Decimal.mk 9999 2)) (Some true) (Some "FOOD")
       :: rows Sample.store).
Proof.
  apply (create_then_list Sample.names Text.upper Text.lower
           (Sample.send (Some "application/json") Sample.good_data)
           (Sample.get [("name", "")]) Sample.store Sample.good_data
           (Product.mk None (VStr "TestProduct") (VStr "TestDescription")
              (Some (Decimal.mk 9999 2)) (Some true) (Some "FOOD")));
    reflexivity.
Defined.

(** What the test client gets when it posts the serialization of a valid
    Product whose description is a text. *)
Lemma post_serialized_run (names : list string) (w : world) (x : Product.t) :
  valid names x ->
  Product.is_text (Product.description x) = true ->
  let created := Product.set_id (Some (next_id w)) x in
  create_products names (TestClient.post_json (Product.serialize x)) w =
    (Return (mk_response (Json (Product.serialize created)) HTTP_201_CREATED
               [("Location",
                 "http://localhost" ++ "/products/" ++ Text.str_Z (next_id w))]),
     mk_world (rows w ++ [created]) (next_id w + 1)
              (calls w ++ [Call_deserialize (Product.serialize x); Call_create])).
Proof.
  intros Hvalid Htext created.
  pose proof (deserialize_serialize_exact names x Product.new Hvalid) as Hdes.
  assert (Hok : Product.complete (Product.set_id (Product.id Product.new) x)
                = true).
  { destruct Hvalid as ((n & Hn & Hne) & (d & Hd) & (b & Hb) & (c & Hc & _)).
    unfold Product.complete. cbn [Product.set_id Product.name
      Product.description Product.price Product.available Product.category].
    rewrite Hn, Hd, Hb, Hc, Htext.
    destruct n; [now elim Hne | reflexivity]. }
  exact (create_products_run names
           (TestClient.post_json (Product.serialize x)) w
           (Product.serialize x) _ eq_refl eq_refl Hdes Hok).
Qed.

(** X19.  When every Product of the factory is valid with a text as
    description, [_create_products] passes all its assertions: it returns the
    Products of the factory, unchanged but for their ids, the table grows by
    exactly these Products in order, the key generator advances by their
    number, and [get_product_count] then counts the old rows plus the new
    ones. *)
Theorem create_products_batch
        (names : list string) (upper lower : string -> string)
        (factory : list Product.t) (w : world) :
  Forall (fun x => valid names x /\
                   Product.is_text (Product.description x) = true) factory ->
  exists products,
    fst (TestClient._create_products names factory w) = Some products /\
    map (Product.set_id None) products = map (Product.set_id None) factory /\
    rows (snd (TestClient._create_products names factory w))
      = (rows w ++ products)%list /\
    next_id (snd (TestClient._create_products names factory w))
      = next_id w + Z.of_nat (List.length factory) /\
    fst (TestClient.get_product_count names upper lower
           (snd (TestClient._create_products names factory w)))
      = Some (List.length (rows w) + List.length factory)%nat.
Proof.
  intros Hall. revert w.
  induction Hall as [| x rest [Hvalid Htext] _ IH]; intros w.
  - exists []. cbn [TestClient._create_products fst snd map List.length].
    rewrite app_nil_r, Z.add_0_r, Nat.add_0_r.
    repeat split.
    unfold TestClient.get_product_count, list_products, bind,
      except_AttributeError. cbn. now rewrite length_map.
  - cbn [TestClient._create_products].
    rewrite (post_serialized_run names w x Hvalid Htext).
    set (created := Product.set_id (Some (next_id w)) x).
    set (w1 := mk_world _ _ _).
    cbn [http_status status negb Z.eqb HTTP_201_CREATED Pos.eqb
         TestClient.response_id body Product.serialize dict_get assoc
         String.eqb Ascii.eqb Bool.eqb from_option Product.id Product.set_id
         created].
    destruct (IH w1) as (ps & Hps & Hfields & Hrows & Hnext & Hcount).
    destruct (TestClient._create_products names rest w1) as [[ps' |] w2];
      cbn [fst snd] in *; [| discriminate].
    injection Hps as ->.
    exists (created :: ps). cbn [fst snd].
    repeat split.
    + cbn [map]. rewrite Hfields. reflexivity.
    + rewrite Hrows. subst w1. cbn [rows]. now rewrite <- app_assoc.
    + rewrite Hnext. subst w1. cbn [next_id List.length]. lia.
    + rewrite Hcount. subst w1. cbn [rows List.length].
      rewrite length_app. cbn [List.length]. f_equal. lia.
Qed.

Lemma create_products_batch_witness :
  exists products,
    fst (TestClient._create_products Sample.names
           [Sample.fedora; Sample.bread] Sample.empty_store) = Some products /\
    rows (snd (TestClient._create_products Sample.names
                 [Sample.fedora; Sample.bread] Sample.empty_store))
      = products /\
    fst (TestClient.get_product_count Sample.names Text.upper Text.lower
           (snd (TestClient._create_products Sample.names
                   [Sample.fedora; Sample.bread] Sample.empty_store)))
      = Some 2%nat.
Proof.
  destruct (create_products_batch Sample.names Text.upper Text.lower
              [Sample.fedora; Sample.bread] Sample.empty_store)
    as (ps & Hps & _ & Hrows & _ & Hcount).
  - repeat constructor; unfold valid; simpl; repeat split;
      try (eexists; split; [reflexivity | first [discriminate | simpl; auto]]);
      try (eexists; reflexivity).
  - exists ps. split; [exact Hps |]. split; [exact Hrows | exact Hcount].
Defined.
